(** * fast-jss-manager-angular: [manage-jss.ts]

    A shallow embedding of the [JSSManager] mixin produced by [manageJss]
    (packages/fast-jss-manager-angular/src/manage-jss.ts), together with the
    properties of its style separation, its per-class stylesheet cache, its
    lifecycle hooks and its class-name merge.

    Conventions of the embedding.
    - A JS object used as a dictionary is a [gmap string _] of its own
      properties; [undefined] and [null] results are [None]. Names inherited
      from [Object.prototype] are not part of the model.
    - Objects whose identity matters carry a reference: stylesheets and
      separated-stylesheet objects get theirs from the allocation counter of
      the [World]; style objects get theirs from the caller.
    - Calls to the collaborators (jss, the sheets manager, the DOM event
      target) are recorded, in order, in the [trace] of the [World].
    - A method of the class is a computation in the monad [M], whose state is
      the receiver [this] and the [World], and which may throw. *)

From stdpp Require Import gmap strings list fin_maps pretty.

#[local] Set Warnings "-register-all".

Open Scope string_scope.
Open Scope list_scope.
Open Scope stdpp_scope.

(** ** JavaScript values carried by events and held in [this.config] *)

Inductive JsVal :=
| JsUndefined
| JsNull
| JsBool (b : bool)
| JsNum (n : Z)
| JsStr (s : string)
| JsObj (fields : list (string * JsVal)).

(** [Boolean(v)]: objects are always truthy. *)
Definition truthy (v : JsVal) : bool :=
  match v with
  | JsUndefined | JsNull => false
  | JsBool b => b
  | JsNum n => negb (n =? 0)%Z
  | JsStr s => negb (String.eqb s "")
  | JsObj _ => true
  end.

(** [Boolean(s)] for a string that may be [undefined]. *)
Definition truthy_str (o : option string) : bool :=
  match o with
  | Some s => negb (String.eqb s "")
  | None => false
  end.

(** ** Style rules

    [ICSSRules<T>]: [{ [rule: string]: ICSSRules<T> | CSSRuleResolver<T> | string }]. *)

Inductive Rule :=
| Literal (s : string)
| Resolver (f : JsVal -> string)
| Nested (t : gmap string Rule).

Abbreviation ICSSRules := (gmap string Rule).

(** A style object as passed to [manageJss]: its identity (the key of the
    [WeakMap]), its own keys in property order ([Object.keys]) and its
    rules. *)
Record ComponentStyles := {
  style_ref : nat;
  style_keys : list string;
  style_rules : ICSSRules;
}.

(** Modelled from the spec: [getDynamicStyles] of jss ("extractDynamic"), not
    under src/. A rule is kept when its value is a resolver; a nested tree is
    kept when something of it is kept; the result is [null] ([None]) when
    nothing is kept. *)
Fixpoint getDynamicRule (r : Rule) : option Rule :=
  match r with
  | Literal _ => None
  | Resolver f => Some (Resolver f)
  | Nested t =>
      let to := omap getDynamicRule t in
      if decide (to = ∅) then None else Some (Nested to)
  end.

Definition getDynamicStyles (styles : ICSSRules) : option ICSSRules :=
  let to := omap getDynamicRule styles in
  if decide (to = ∅) then None else Some to.

(** Modelled from the spec: [getStaticStyles] of ./utilities/get-static-styles
    ("extractStatic"), not under src/. The mirror image of
    [getDynamicStyles]: literals are kept, resolvers are dropped, a side that
    ends up with no rule is absent. *)
Fixpoint getStaticRule (r : Rule) : option Rule :=
  match r with
  | Literal s => Some (Literal s)
  | Resolver _ => None
  | Nested t =>
      let extracted := omap getStaticRule t in
      if decide (extracted = ∅) then None else Some (Nested extracted)
  end.

Definition getStaticStyles (styles : ICSSRules) : option ICSSRules :=
  let extracted := omap getStaticRule styles in
  if decide (extracted = ∅) then None else Some extracted.

(** Modelled from the spec: [isEmptyObject] of ./utilities/object, the
    "generic object-emptiness helper": the object has no key. *)
Definition isEmptyObject {A} (o : gmap string A) : bool :=
  bool_decide (o = ∅).

(** The union of a static and a dynamic tree at every nesting level, used to
    state that separation loses nothing. A name bound on both sides to nested
    trees is bound to their union; otherwise the static side wins. *)
Fixpoint rule_union (s : Rule) : Rule -> Rule :=
  match s with
  | Nested ts => fun d =>
      match d with
      | Nested td =>
          Nested (merge (fun os od =>
                           match os, od with
                           | Some s', Some d' => Some (rule_union s' d')
                           | Some s', None => Some s'
                           | None, od => od
                           end) ts td)
      | _ => Nested ts
      end
  | _ => fun _ => s
  end.

(** ** Objects of the program *)

(** A jss [StyleSheet]. What never changes after creation is kept in the
    value; whether it is attached, registered, and what it was last evaluated
    against is kept in the [World], under [sheet_id]. *)
Record StyleSheet := {
  sheet_id : nat;
  sheet_styles : ICSSRules;
  sheet_link : bool;
  classes : gmap string string;
}.

(** [IJSSManagerState] *)
Record IJSSManagerState := {
  dynamicStyleSheet : option StyleSheet;
  staticStyleSheet : option StyleSheet;
}.

(** [ISeparatedStylesheet]; [sep_ref] is the identity of the object literal
    created by [separateStyles]. *)
Record ISeparatedStylesheet := {
  sep_ref : nat;
  sep_staticStyles : option ICSSRules;
  sep_staticStyleSheet : option StyleSheet;
  sep_dynamicStyles : option ICSSRules;
}.

(** The static members of one [JSSManager] class. The class is declared
    inside the function returned by [manageJss], so every call of
    [manageJss(styles)(BaseComponent)] has its own three maps;
    [stylesheetManager] is the one imported object and lives in the
    [World]. *)
Record JSSManagerStatics := {
  componentMap : gmap nat string;
  styleMap : gmap nat string;
  separatedStyles : gmap string ISeparatedStylesheet;
}.

Definition emptyStatics : JSSManagerStatics :=
  {| componentMap := ∅; styleMap := ∅; separatedStyles := ∅ |}.

(** A class returned by [manageJss(styles)(BaseComponent)]: its identity,
    the [styles] its methods close over ([None] when the optional parameter
    was omitted) and the base component it extends. *)
Record JSSManagerClass := {
  class_id : nat;
  class_styles : option ComponentStyles;
  class_base : nat;
}.

(** The names of [eventNames] used by the class. *)
Inductive EventName := getConfig | update | registerComponent | deregisterComponent.

Global Instance EventName_eq_dec : EqDecision EventName.
Proof. solve_decision. Defined.

(** The two closures that [ngOnInit] registers on [this.el.nativeElement]. *)
Inductive Listener := GetConfigListener | UpdateListener.

Definition listens (l : Listener) : EventName :=
  match l with
  | GetConfigListener => getConfig
  | UpdateListener => update
  end.

(** An instance of a [JSSManager] class. *)
Record Instance := {
  inst_class : JSSManagerClass;
  config : JsVal;
  state : option IJSSManagerState;
  instanceId : option string;
  className : option string;
  listeners : list Listener;
}.

(** Calls to the collaborators, in the order they happen. *)
Inductive Event :=
| EGetDynamicStyles (styles : option nat)
| EGetStaticStyles (styles : option nat)
| ECreateStyleSheet (sheet : nat) (link : bool)
| ESheetAttach (sheet : nat)
| ESheetUpdate (sheet : nat) (data : JsVal)
| ESheetDetach (sheet : nat)
| ERemoveStyleSheet (sheet : nat)
| EManagerAdd (sheet : nat)
| EManagerManage (sheet : nat)
| EManagerUnmanage (sheet : nat)
| EDispatchEvent (name : EventName) (detail : JsVal).

Record World := {
  next_class : nat;
  next_uuid : nat;
  next_obj : nat;
  statics : gmap nat JSSManagerStatics;
  attached : gset nat;
  registry : gset nat;
  managed : gmap nat nat;
  rendered : gmap nat JsVal;
  trace : list Event;
}.

Definition initialWorld : World :=
  {| next_class := 0; next_uuid := 0; next_obj := 0; statics := ∅;
     attached := ∅; registry := ∅; managed := ∅; rendered := ∅; trace := [] |}.

(** ** The monad of methods: receiver, world and exceptions *)

Inductive JsError := TypeError (msg : string).

Inductive Outcome (A : Type) :=
| Ok (a : A)
| Throw (e : JsError).
Arguments Ok {A} a.
Arguments Throw {A} e.

Record Sys := { this : Instance; world : World }.

Definition M (A : Type) : Type := Sys -> Outcome A * Sys.

Global Instance M_ret : MRet M := fun A a s => (Ok a, s).

Global Instance M_bind : MBind M := fun A B f m s =>
  match m s with
  | (Ok a, s') => f a s'
  | (Throw e, s') => (Throw e, s')
  end.

Definition throw {A} (e : JsError) : M A := fun s => (Throw e, s).

(** An exception raised by a listener is reported, not propagated to the
    caller of [dispatchEvent]. *)
Definition reported (m : M unit) : M unit := fun s => (Ok tt, (m s).2).

Definition getThis : M Instance := fun s => (Ok (this s), s).
Definition getWorld : M World := fun s => (Ok (world s), s).
Definition modifyThis (f : Instance -> Instance) : M unit :=
  fun s => (Ok tt, {| this := f (this s); world := world s |}).
Definition modifyWorld (f : World -> World) : M unit :=
  fun s => (Ok tt, {| this := this s; world := f (world s) |}).

Fixpoint forEach {A} (l : list A) (f : A -> M unit) : M unit :=
  match l with
  | [] => mret tt
  | x :: l' => f x ;; forEach l' f
  end.

(** ** Updates of single fields *)

Definition with_trace (f : list Event -> list Event) (w : World) : World :=
  {| next_class := next_class w; next_uuid := next_uuid w; next_obj := next_obj w;
     statics := statics w; attached := attached w; registry := registry w;
     managed := managed w; rendered := rendered w; trace := f (trace w) |}.

Definition with_attached (f : gset nat -> gset nat) (w : World) : World :=
  {| next_class := next_class w; next_uuid := next_uuid w; next_obj := next_obj w;
     statics := statics w; attached := f (attached w); registry := registry w;
     managed := managed w; rendered := rendered w; trace := trace w |}.

Definition with_registry (f : gset nat -> gset nat) (w : World) : World :=
  {| next_class := next_class w; next_uuid := next_uuid w; next_obj := next_obj w;
     statics := statics w; attached := attached w; registry := f (registry w);
     managed := managed w; rendered := rendered w; trace := trace w |}.

Definition with_managed (f : gmap nat nat -> gmap nat nat) (w : World) : World :=
  {| next_class := next_class w; next_uuid := next_uuid w; next_obj := next_obj w;
     statics := statics w; attached := attached w; registry := registry w;
     managed := f (managed w); rendered := rendered w; trace := trace w |}.

Definition with_rendered (f : gmap nat JsVal -> gmap nat JsVal) (w : World) : World :=
  {| next_class := next_class w; next_uuid := next_uuid w; next_obj := next_obj w;
     statics := statics w; attached := attached w; registry := registry w;
     managed := managed w; rendered := f (rendered w); trace := trace w |}.

Definition with_statics
    (f : gmap nat JSSManagerStatics -> gmap nat JSSManagerStatics) (w : World) : World :=
  {| next_class := next_class w; next_uuid := next_uuid w; next_obj := next_obj w;
     statics := f (statics w); attached := attached w; registry := registry w;
     managed := managed w; rendered := rendered w; trace := trace w |}.

Definition bump_obj (w : World) : World :=
  {| next_class := next_class w; next_uuid := next_uuid w; next_obj := S (next_obj w);
     statics := statics w; attached := attached w; registry := registry w;
     managed := managed w; rendered := rendered w; trace := trace w |}.

Definition bump_uuid (w : World) : World :=
  {| next_class := next_class w; next_uuid := S (next_uuid w); next_obj := next_obj w;
     statics := statics w; attached := attached w; registry := registry w;
     managed := managed w; rendered := rendered w; trace := trace w |}.

Definition bump_class (w : World) : World :=
  {| next_class := S (next_class w); next_uuid := next_uuid w; next_obj := next_obj w;
     statics := statics w; attached := attached w; registry := registry w;
     managed := managed w; rendered := rendered w; trace := trace w |}.

Definition set_config (v : JsVal) (i : Instance) : Instance :=
  {| inst_class := inst_class i; config := v; state := state i;
     instanceId := instanceId i; className := className i; listeners := listeners i |}.

Definition set_state (st : option IJSSManagerState) (i : Instance) : Instance :=
  {| inst_class := inst_class i; config := config i; state := st;
     instanceId := instanceId i; className := className i; listeners := listeners i |}.

Definition set_instanceId (id : option string) (i : Instance) : Instance :=
  {| inst_class := inst_class i; config := config i; state := state i;
     instanceId := id; className := className i; listeners := listeners i |}.

Definition set_className (c : option string) (i : Instance) : Instance :=
  {| inst_class := inst_class i; config := config i; state := state i;
     instanceId := instanceId i; className := c; listeners := listeners i |}.

Definition add_listener (l : Listener) (i : Instance) : Instance :=
  {| inst_class := inst_class i; config := config i; state := state i;
     instanceId := instanceId i; className := className i;
     listeners := listeners i ++ [l] |}.

Definition log (e : Event) : M unit := modifyWorld (with_trace (fun t => t ++ [e])).

(** A new instance, before any lifecycle hook has run: no field is set. *)
Definition newInstance (cls : JSSManagerClass) : Instance :=
  {| inst_class := cls; config := JsUndefined; state := None;
     instanceId := None; className := None; listeners := [] |}.

(** [manageJss(styles)(BaseComponent)]: declares a new class, whose static
    maps start empty. *)
Definition manageJss (styles : option ComponentStyles) (BaseComponent : nat)
    (w : World) : JSSManagerClass * World :=
  ({| class_id := next_class w; class_styles := styles; class_base := BaseComponent |},
   bump_class (with_statics (delete (next_class w)) w)).

(** The key [Component] of [componentMap]: the decorator imported from
    @angular/core, one object for the whole program. *)
Definition Component : nat := 0.

(** [WeakMap.prototype.get]: [undefined] for a key that is not an object. *)
Definition weakMap_get (m : gmap nat string) (key : option nat) : option string :=
  k ← key; m !! k.

(** [WeakMap.prototype.set]: a key that is not an object is a [TypeError]. *)
Definition weakMap_set (m : gmap nat string) (key : option nat) (v : string)
    : M (gmap nat string) :=
  match key with
  | Some k => mret (<[k := v]> m)
  | None => throw (TypeError "Invalid value used as weak map key")
  end.

(** The text of a value inside a template literal. *)
Definition template (o : option string) : string := default "undefined" o.

Section JSSManager.

(** The collaborators that produce names: [uuid()] returns [uuid_of n] on
    its [n]-th call, and jss names the class of rule [key] of the sheet
    created [id]-th as [generateClassName id key]. *)
Variable uuid_of : nat -> string.
Variable generateClassName : nat -> string -> string.

Definition uuid : M string :=
  w ← getWorld;
  modifyWorld bump_uuid;;
  mret (uuid_of (next_uuid w)).

(** *** jss *)

(** The sheet that jss builds from [styles] as its [id]-th object: one
    generated class name per rule. *)
Definition newStyleSheet (id : nat) (styles : ICSSRules) (link : bool) : StyleSheet :=
  {| sheet_id := id; sheet_styles := styles; sheet_link := link;
     classes := map_imap (fun key _ => Some (generateClassName id key)) styles |}.

(** [jss.createStyleSheet(styles, { link })]: a new sheet, not attached,
    known to the sheets registry. *)
Definition jss_createStyleSheet (styles : ICSSRules) (link : bool) : M StyleSheet :=
  w ← getWorld;
  let id := next_obj w in
  modifyWorld bump_obj;;
  modifyWorld (with_registry (union {[id]}));;
  log (ECreateStyleSheet id link);;
  mret (newStyleSheet id styles link).

(** [sheet.attach()], which returns the sheet. *)
Definition sheet_attach (sheet : StyleSheet) : M StyleSheet :=
  modifyWorld (with_attached (union {[sheet_id sheet]}));;
  log (ESheetAttach (sheet_id sheet));;
  mret sheet.

(** [sheet.update(data)] *)
Definition sheet_update (sheet : StyleSheet) (data : JsVal) : M unit :=
  modifyWorld (with_rendered (insert (sheet_id sheet) data));;
  log (ESheetUpdate (sheet_id sheet) data).

(** [sheet.detach()] *)
Definition sheet_detach (sheet : StyleSheet) : M unit :=
  modifyWorld (with_attached (fun a => a ∖ {[sheet_id sheet]}));;
  log (ESheetDetach (sheet_id sheet)).

(** [jss.removeStyleSheet(sheet)]: detaches the sheet and forgets it. *)
Definition jss_removeStyleSheet (sheet : StyleSheet) : M unit :=
  modifyWorld (with_attached (fun a => a ∖ {[sheet_id sheet]}));;
  modifyWorld (with_registry (fun r => r ∖ {[sheet_id sheet]}));;
  log (ERemoveStyleSheet (sheet_id sheet)).

(** *** The shared sheets manager

    Modelled from the spec: the [SheetsManager] of jss, "reference-counted
    registration so a static handle shared by many instances is injected
    once and removed only when the last instance unregisters". *)

Definition stylesheetManager_add (key sheet : StyleSheet) : M unit :=
  modifyWorld (with_managed (fun m =>
    match m !! sheet_id key with
    | Some _ => m
    | None => <[sheet_id key := 0]> m
    end));;
  log (EManagerAdd (sheet_id key)).

Definition stylesheetManager_manage (key : StyleSheet) : M unit :=
  w ← getWorld;
  match managed w !! sheet_id key with
  | Some refs =>
      (if decide (refs = 0)
       then modifyWorld (with_attached (union {[sheet_id key]}))
       else mret tt);;
      modifyWorld (with_managed (insert (sheet_id key) (S refs)))
  | None => mret tt
  end;;
  log (EManagerManage (sheet_id key)).

Definition stylesheetManager_unmanage (key : StyleSheet) : M unit :=
  w ← getWorld;
  match managed w !! sheet_id key with
  | Some (S refs) =>
      modifyWorld (with_managed (insert (sheet_id key) refs));;
      (if decide (refs = 0)
       then modifyWorld (with_attached (fun a => a ∖ {[sheet_id key]}))
       else mret tt)
  | _ => mret tt
  end;;
  log (EManagerUnmanage (sheet_id key)).

(** *** Static members of the receiver's class *)

Definition getStatics : M JSSManagerStatics :=
  i ← getThis;
  w ← getWorld;
  mret (default emptyStatics (statics w !! class_id (inst_class i))).

Definition setStatics (st : JSSManagerStatics) : M unit :=
  i ← getThis;
  modifyWorld (with_statics (insert (class_id (inst_class i)) st)).

(** [this.state], for a property read: reading a property of [undefined] is
    a [TypeError]. *)
Definition getState : M IJSSManagerState :=
  i ← getThis;
  match state i with
  | Some st => mret st
  | None => throw (TypeError "Cannot read properties of undefined")
  end.

(** *** Methods of [JSSManager] *)

(** [get designSystem()]: [this.config ? this.config : {}] *)
Definition designSystem_of (config : JsVal) : JsVal :=
  if truthy config then config else JsObj [].

Definition designSystem : M JsVal :=
  i ← getThis;
  mret (designSystem_of (config i)).

Definition hasStaticStyleSheet : M bool :=
  st ← getState;
  mret (bool_decide (is_Some (staticStyleSheet st))).

Definition hasDynamicStyleSheet : M bool :=
  st ← getState;
  mret (bool_decide (is_Some (dynamicStyleSheet st))).

(** [separateStyles(componentStyles)] *)
Definition separateStyles (componentStyles : option ComponentStyles)
    : M ISeparatedStylesheet :=
  log (EGetDynamicStyles (style_ref <$> componentStyles));;
  let dynamicStyles := s ← componentStyles; getDynamicStyles (style_rules s) in
  log (EGetStaticStyles (style_ref <$> componentStyles));;
  let staticStyles := s ← componentStyles; getStaticStyles (style_rules s) in
  w ← getWorld;
  let ref := next_obj w in
  modifyWorld bump_obj;;
  let sep_dynamic :=
    match dynamicStyles with
    | Some d => if negb (isEmptyObject d) then Some d else None
    | None => None
    end in
  match staticStyles with
  | Some s =>
      if negb (isEmptyObject s) then
        sheet ← jss_createStyleSheet s false;
        mret {| sep_ref := ref; sep_staticStyles := Some s;
                sep_staticStyleSheet := Some sheet; sep_dynamicStyles := sep_dynamic |}
      else
        mret {| sep_ref := ref; sep_staticStyles := None;
                sep_staticStyleSheet := None; sep_dynamicStyles := sep_dynamic |}
  | None =>
      mret {| sep_ref := ref; sep_staticStyles := None;
              sep_staticStyleSheet := None; sep_dynamicStyles := sep_dynamic |}
  end.

(** One turn of the loop of [getClassNames]. *)
Definition mergeClassName (key dynamicClass : string) (classNames : gmap string string)
    : gmap string string :=
  <[key := match classNames !! key with
           | Some staticClass => staticClass +:+ " " +:+ dynamicClass
           | None => dynamicClass
           end]> classNames.

(** [getClassNames()] on a given [this.state]. *)
Definition mergeClassNames (st : IJSSManagerState) : gmap string string :=
  let classNames :=
    match staticStyleSheet st with
    | Some sheet => classes sheet
    | None => ∅
    end in
  match dynamicStyleSheet st with
  | Some sheet => map_fold mergeClassName classNames (classes sheet)
  | None => classNames
  end.

Definition getClassNames : M (gmap string string) :=
  st ← getState;
  mret (mergeClassNames st).

(** *** Events on [this.el.nativeElement] *)

(** The listener of [eventNames.getConfig] (lines 121-127). *)
Definition onGetConfig (detail : JsVal) : M unit :=
  modifyThis (set_config detail);;
  st ← getState;
  match dynamicStyleSheet st with
  | Some sheet => ds ← designSystem; sheet_update sheet ds
  | None => mret tt
  end.

(** The listeners registered under [name] are called in the order of their
    registration. *)
Definition deliver (name : EventName) (run : Listener -> M unit) : M unit :=
  i ← getThis;
  forEach (filter (fun l => listens l = name) (listeners i))
          (fun l => reported (run l)).

(** [dispatchEvent(updateStylesEvent)], where [updateStylesEvent] is
    [new CustomEvent(eventNames.getConfig, {detail: {}})]. *)
Definition dispatch_updateStylesEvent : M unit :=
  log (EDispatchEvent getConfig (JsObj []));;
  deliver getConfig (fun _ => onGetConfig (JsObj [])).

(** The listener of [eventNames.update] (lines 135-137). *)
Definition onUpdate : M unit := dispatch_updateStylesEvent.

(** An event named [name] with detail [detail] reaches the element: from
    [dispatchEvent] below, or from the environment (the delivery of a
    configuration, a request to refresh). *)
Definition receiveEvent (name : EventName) (detail : JsVal) : M unit :=
  deliver name
    (fun l => match l with
              | GetConfigListener => onGetConfig detail
              | UpdateListener => onUpdate
              end).

(** [this.el.nativeElement.dispatchEvent(new CustomEvent(name, {detail}))] *)
Definition dispatchEvent (name : EventName) (detail : JsVal) : M unit :=
  log (EDispatchEvent name detail);;
  receiveEvent name detail.

(** *** Lifecycle hooks

    The hooks of [BaseComponent] reached through [super] are outside this
    file and are taken to be absent. *)

Definition ngOnInit : M unit :=
  modifyThis (set_state (Some {| dynamicStyleSheet := None; staticStyleSheet := None |}));;
  modifyThis (add_listener GetConfigListener);;
  dispatchEvent registerComponent JsNull;;
  dispatch_updateStylesEvent;;
  modifyThis (add_listener UpdateListener).

(** Lines 145-166 of [ngAfterContentInit]: the value of
    [separatedStylesInstance] once the cache has been consulted. *)
Definition separatedStylesInstance_of_cache : M ISeparatedStylesheet :=
  i ← getThis;
  let styles := class_styles (inst_class i) in
  c ← getStatics;
  (if negb (truthy_str (weakMap_get (styleMap c) (style_ref <$> styles))) then
     id ← uuid;
     m ← weakMap_set (styleMap c) (style_ref <$> styles) id;
     setStatics {| componentMap := componentMap c; styleMap := m;
                   separatedStyles := separatedStyles c |}
   else mret tt);;
  c ← getStatics;
  (if negb (truthy_str (weakMap_get (componentMap c) (Some Component))) then
     id ← uuid;
     m ← weakMap_set (componentMap c) (Some Component) id;
     setStatics {| componentMap := m; styleMap := styleMap c;
                   separatedStyles := separatedStyles c |}
   else mret tt);;
  c ← getStatics;
  let styleId := weakMap_get (styleMap c) (style_ref <$> styles) in
  let componentId := weakMap_get (componentMap c) (Some Component) in
  let id := template componentId +:+ template styleId in
  modifyThis (set_instanceId (Some id));;
  match separatedStyles c !! id with
  | Some separatedStylesInstance => mret separatedStylesInstance
  | None =>
      separatedStylesInstance ← separateStyles styles;
      c ← getStatics;
      setStatics {| componentMap := componentMap c; styleMap := styleMap c;
                    separatedStyles := <[id := separatedStylesInstance]> (separatedStyles c) |};;
      mret separatedStylesInstance
  end.

(** [Object.keys(styles)[0]], as a property key. *)
Definition firstKey (styles : option ComponentStyles) : M string :=
  match styles with
  | Some s => mret (default "undefined" (head (style_keys s)))
  | None => throw (TypeError "Cannot convert undefined or null to object")
  end.

Definition ngAfterContentInit : M unit :=
  separatedStylesInstance ← separatedStylesInstance_of_cache;
  let staticSheet := sep_staticStyleSheet separatedStylesInstance in
  dynamicSheet ←
    match sep_dynamicStyles separatedStylesInstance with
    | Some dynamicStyles =>
        sheet ← jss_createStyleSheet dynamicStyles true;
        mret (Some sheet)
    | None => mret None
    end;
  modifyThis (set_state (Some {| dynamicStyleSheet := dynamicSheet;
                                 staticStyleSheet := staticSheet |}));;
  classNames ← getClassNames;
  i ← getThis;
  key ← firstKey (class_styles (inst_class i));
  modifyThis (set_className (classNames !! key)).

Definition ngAfterViewInit : M unit :=
  st ← getState;
  match staticStyleSheet st with
  | Some sheet => stylesheetManager_add sheet sheet;; stylesheetManager_manage sheet
  | None => mret tt
  end;;
  st ← getState;
  match dynamicStyleSheet st with
  | Some sheet =>
      sheet' ← sheet_attach sheet;
      ds ← designSystem;
      sheet_update sheet' ds
  | None => mret tt
  end.

Definition ngOnDestroy : M unit :=
  b ← hasStaticStyleSheet;
  (if b : bool then
     st ← getState;
     match staticStyleSheet st with
     | Some sheet => stylesheetManager_unmanage sheet
     | None => mret tt
     end
   else mret tt);;
  b ← hasDynamicStyleSheet;
  (if b : bool then
     st ← getState;
     match dynamicStyleSheet st with
     | Some sheet => sheet_detach sheet;; jss_removeStyleSheet sheet
     | None => mret tt
     end
   else mret tt);;
  dispatchEvent deregisterComponent JsNull.

(** Running a method on an instance in a world. *)
Definition run {A} (m : M A) (i : Instance) (w : World) : Outcome A * Sys :=
  m {| this := i; world := w |}.

(** The hooks of mounting, in the order the framework calls them. *)
Definition mount : M unit := ngOnInit;; ngAfterContentInit;; ngAfterViewInit.

(** ** Notions used to state the properties *)

(** The class map of a sheet that may be absent. *)
Definition classesOf (o : option StyleSheet) : gmap string string :=
  match o with
  | Some sheet => classes sheet
  | None => ∅
  end.

(** Union of two optional rules, as in [rule_union]. *)
Definition opt_union (os od : option Rule) : option Rule :=
  match os, od with
  | Some s', Some d' => Some (rule_union s' d')
  | Some s', None => Some s'
  | None, od => od
  end.

(** The static and the dynamic side of a separated stylesheet, put back
    together; an absent side contributes nothing. *)
Definition styles_union (s d : option ICSSRules) : ICSSRules :=
  match s, d with
  | Some ts, Some td => merge opt_union ts td
  | Some ts, None => ts
  | None, Some td => td
  | None, None => ∅
  end.

(** A rule without the nested trees that hold no literal and no resolver at
    any depth. *)
Fixpoint pruneRule (r : Rule) : option Rule :=
  match r with
  | Nested t =>
      let kept := omap pruneRule t in
      if decide (kept = ∅) then None else Some (Nested kept)
  | _ => Some r
  end.

(** The rule at a position of a tree, the position being the list of the
    names that lead to it. *)
Fixpoint rule_at (path : list string) (r : Rule) : option Rule :=
  match path with
  | [] => Some r
  | key :: path' =>
      match r with
      | Nested t => r' ← t !! key; rule_at path' r'
      | _ => None
      end
  end.

Fixpoint rule_size (r : Rule) : nat :=
  match r with
  | Nested t => S (map_fold (fun _ r' n => rule_size r' + n) 0 t)
  | _ => 1
  end.

(** The static members of class [c] in a world. *)
Definition classStatics (c : nat) (w : World) : JSSManagerStatics :=
  default emptyStatics (statics w !! c).

Definition with_next_obj (f : nat -> nat) (w : World) : World :=
  {| next_class := next_class w; next_uuid := next_uuid w; next_obj := f (next_obj w);
     statics := statics w; attached := attached w; registry := registry w;
     managed := managed w; rendered := rendered w; trace := trace w |}.

(** An instance on which [ngOnInit], and nothing else, has run. *)
Definition initialized (cls : JSSManagerClass) : Instance :=
  {| inst_class := cls; config := JsObj [];
     state := Some {| dynamicStyleSheet := None; staticStyleSheet := None |};
     instanceId := None; className := None;
     listeners := [GetConfigListener; UpdateListener] |}.

(** Kinds of events. *)
Definition is_extraction (e : Event) : bool :=
  match e with EGetDynamicStyles _ => true | _ => false end.

Definition is_staticCompilation (e : Event) : bool :=
  match e with ECreateStyleSheet _ false => true | _ => false end.

Definition is_dynamicCompilation (e : Event) : bool :=
  match e with ECreateStyleSheet _ true => true | _ => false end.

Definition is_registration (e : Event) : bool :=
  match e with EManagerAdd _ => true | _ => false end.

(** The events of a classification-and-compilation pass. *)
Definition is_separation (e : Event) : bool :=
  match e with
  | EGetDynamicStyles _ | EGetStaticStyles _ | ECreateStyleSheet _ false => true
  | _ => false
  end.

Definition count_events (p : Event -> bool) (t : list Event) : nat :=
  length (filter (fun e => p e = true) t).

(** The sheet an event is about. *)
Definition event_sheet (e : Event) : option nat :=
  match e with
  | ECreateStyleSheet id _ | ESheetAttach id | ESheetUpdate id _ | ESheetDetach id
  | ERemoveStyleSheet id | EManagerAdd id | EManagerManage id | EManagerUnmanage id => Some id
  | _ => None
  end.

(** What [separateStyles(styles)] returns and does when [n] objects have been
    created before: the object itself is the [n]-th, its static sheet the
    next. *)
Definition separated (styles : ComponentStyles) (n : nat) : ISeparatedStylesheet :=
  {| sep_ref := n;
     sep_staticStyles := getStaticStyles (style_rules styles);
     sep_staticStyleSheet :=
       (fun s => newStyleSheet (S n) s false) <$> getStaticStyles (style_rules styles);
     sep_dynamicStyles := getDynamicStyles (style_rules styles) |}.

Definition separate_events (styles : ComponentStyles) (n : nat) : list Event :=
  [EGetDynamicStyles (Some (style_ref styles)); EGetStaticStyles (Some (style_ref styles))]
  ++ match getStaticStyles (style_rules styles) with
     | Some _ => [ECreateStyleSheet (S n) false]
     | None => []
     end.

Definition separate_next (styles : ComponentStyles) (n : nat) : nat :=
  match getStaticStyles (style_rules styles) with
  | Some _ => S (S n)
  | None => S n
  end.

Definition separate_registry (styles : ComponentStyles) (n : nat) (r : gset nat)
    : gset nat :=
  match getStaticStyles (style_rules styles) with
  | Some _ => {[S n]} ∪ r
  | None => r
  end.

Definition separate_world (styles : ComponentStyles) (w : World) : World :=
  with_trace (fun t => t ++ separate_events styles (next_obj w))
    (with_registry (separate_registry styles (next_obj w))
       (with_next_obj (separate_next styles) w)).

(** What the rest of [ngAfterContentInit] does with the separated stylesheet
    it got, when [n] objects have been created before. *)
Definition content_state (sep : ISeparatedStylesheet) (n : nat) : IJSSManagerState :=
  {| dynamicStyleSheet := (fun d => newStyleSheet n d true) <$> sep_dynamicStyles sep;
     staticStyleSheet := sep_staticStyleSheet sep |}.

Definition content_events (sep : ISeparatedStylesheet) (n : nat) : list Event :=
  match sep_dynamicStyles sep with
  | Some _ => [ECreateStyleSheet n true]
  | None => []
  end.

Definition content_next (sep : ISeparatedStylesheet) (n : nat) : nat :=
  match sep_dynamicStyles sep with
  | Some _ => S n
  | None => n
  end.

Definition content_registry (sep : ISeparatedStylesheet) (n : nat) (r : gset nat)
    : gset nat :=
  match sep_dynamicStyles sep with
  | Some _ => {[n]} ∪ r
  | None => r
  end.

Definition content_world (sep : ISeparatedStylesheet) (w : World) : World :=
  with_trace (fun t => t ++ content_events sep (next_obj w))
    (with_registry (content_registry sep (next_obj w))
       (with_next_obj (content_next sep) w)).

(** The calls of [ngAfterViewInit] and of [ngOnDestroy] for the handles of a
    state. *)
Definition view_events (st : IJSSManagerState) (ds : JsVal) : list Event :=
  match staticStyleSheet st with
  | Some s => [EManagerAdd (sheet_id s); EManagerManage (sheet_id s)]
  | None => []
  end
  ++ match dynamicStyleSheet st with
     | Some d => [ESheetAttach (sheet_id d); ESheetUpdate (sheet_id d) ds]
     | None => []
     end.

Definition destroy_events (st : IJSSManagerState) : list Event :=
  match staticStyleSheet st with
  | Some s => [EManagerUnmanage (sheet_id s)]
  | None => []
  end
  ++ match dynamicStyleSheet st with
     | Some d => [ESheetDetach (sheet_id d); ERemoveStyleSheet (sheet_id d)]
     | None => []
     end
  ++ [EDispatchEvent deregisterComponent JsNull].

(** The events of the first mount in a class, when [n] objects have been
    created before. *)
Definition first_mount_events (styles : ComponentStyles) (n : nat) : list Event :=
  [EDispatchEvent registerComponent JsNull; EDispatchEvent getConfig (JsObj [])]
  ++ separate_events styles n
  ++ content_events (separated styles n) (separate_next styles n)
  ++ view_events (content_state (separated styles n) (separate_next styles n)) (JsObj []).

(** The world after the listener of [getConfig] has received [detail], for
    the handles of a state. *)
Definition config_world (st : IJSSManagerState) (detail : JsVal) (w : World) : World :=
  match dynamicStyleSheet st with
  | Some d =>
      with_trace (fun t => t ++ [ESheetUpdate (sheet_id d) (designSystem_of detail)])
        (with_rendered (insert (sheet_id d) (designSystem_of detail)) w)
  | None => w
  end.

(** The class of [cls] holds [sep] in its cache, under the key made of the
    identifiers it gave to [Component] and to [styles]. *)
Definition cached (cls : JSSManagerClass) (styles : ComponentStyles)
    (sep : ISeparatedStylesheet) (w : World) : Prop :=
  ∃ c sid cmp,
    statics w !! class_id cls = Some c ∧
    styleMap c !! style_ref styles = Some sid ∧ sid ≠ "" ∧
    componentMap c !! Component = Some cmp ∧ cmp ≠ "" ∧
    separatedStyles c !! (cmp +:+ sid) = Some sep.

(** What a consultation of the cache by an instance of [cls] changes, from
    [w] to [w'], when it returns [sep], found or stored under [key]. It
    touches the identifiers and the cache of [cls] only; either the object was
    in the cache and nothing else happens, or it was not and [separateStyles]
    has run once; and when [uuid] returns non-empty strings, the object is in
    the cache afterwards under a key that later consultations compute
    again. *)
Definition consulted (cls : JSSManagerClass) (styles : ComponentStyles) (w : World)
    (sep : ISeparatedStylesheet) (key : string) (w' : World) : Prop :=
  next_class w' = next_class w ∧ attached w' = attached w ∧
  managed w' = managed w ∧ rendered w' = rendered w ∧
  (∀ c, c ≠ class_id cls → statics w' !! c = statics w !! c) ∧
  separatedStyles (classStatics (class_id cls) w')
  = <[key := sep]> (separatedStyles (classStatics (class_id cls) w)) ∧
  ((separatedStyles (classStatics (class_id cls) w) !! key = Some sep ∧
    trace w' = trace w ∧ next_obj w' = next_obj w ∧ registry w' = registry w)
   ∨ (separatedStyles (classStatics (class_id cls) w) !! key = None ∧
      sep = separated styles (next_obj w) ∧
      trace w' = trace (separate_world styles w) ∧
      next_obj w' = next_obj (separate_world styles w) ∧
      registry w' = registry (separate_world styles w))) ∧
  ((∀ n, uuid_of n ≠ "") → cached cls styles sep w').

(** Every event about a sheet, other than its creation, comes after the
    creation of the sheet. *)
Definition Ordered (t : list Event) : Prop :=
  ∀ k e id,
    t !! k = Some e → event_sheet e = Some id →
    (∃ link, e = ECreateStyleSheet id link) ∨
    (∃ j link, j < k ∧ t !! j = Some (ECreateStyleSheet id link)).

(** Invariant of the worlds the program can reach: a static sheet held in a
    cache has been created, no event is about a sheet that does not exist
    yet, and sheets are created before they are used. *)
Definition WorldInv (w : World) : Prop :=
  (∀ c st key sep sheet,
     statics w !! c = Some st → separatedStyles st !! key = Some sep →
     sep_staticStyleSheet sep = Some sheet →
     ECreateStyleSheet (sheet_id sheet) false ∈ trace w) ∧
  (∀ e id, e ∈ trace w → event_sheet e = Some id → id < next_obj w) ∧
  Ordered (trace w).

(** The handles an instance holds have been created. *)
Definition InstInv (w : World) (i : Instance) : Prop :=
  ∀ st sheet,
    state i = Some st →
    staticStyleSheet st = Some sheet ∨ dynamicStyleSheet st = Some sheet →
    ∃ link, ECreateStyleSheet (sheet_id sheet) link ∈ trace w.

(** What one call of the listener of [getConfig] does, whether it returns
    or throws (it throws when [this.state] is not set, after it has stored
    the detail). *)
Definition received (detail : JsVal) (s : Sys) : Sys :=
  {| this := set_config detail (this s);
     world := match state (this s) with
              | Some st => config_world st detail (world s)
              | None => world s
              end |}.

(** What [dispatchEvent(updateStylesEvent)] does. *)
Definition refreshed (s : Sys) : Sys :=
  Nat.iter (length (filter (fun l => listens l = getConfig) (listeners (this s))))
    (received (JsObj []))
    {| this := this s;
       world := with_trace (fun t => t ++ [EDispatchEvent getConfig (JsObj [])]) (world s) |}.

(** What the hooks keep true of the receiver and the world, [t0] being a
    trace of earlier events. *)
Definition HookInv (t0 : list Event) (s : Sys) : Prop :=
  WorldInv (world s) ∧ InstInv (world s) (this s) ∧ t0 `prefix_of` trace (world s).

(** The program as a whole: classes are declared, instances are created, and
    the framework and the environment call the hooks and deliver events to
    the instances, in any order. *)
Inductive Hook :=
| OnInit
| AfterContentInit
| AfterViewInit
| OnDestroy
| Receive (name : EventName) (detail : JsVal).

Definition callHook (h : Hook) : M unit :=
  match h with
  | OnInit => ngOnInit
  | AfterContentInit => ngAfterContentInit
  | AfterViewInit => ngAfterViewInit
  | OnDestroy => ngOnDestroy
  | Receive name detail => receiveEvent name detail
  end.

Record System := { sys_world : World; sys_instances : list Instance }.

Definition initialSystem : System := {| sys_world := initialWorld; sys_instances := [] |}.

Inductive step : System → System → Prop :=
| step_declare sys styles base :
    step sys {| sys_world := (manageJss styles base (sys_world sys)).2;
                sys_instances := sys_instances sys |}
| step_new sys cls :
    step sys {| sys_world := sys_world sys;
                sys_instances := sys_instances sys ++ [newInstance cls] |}
| step_hook sys k i h :
    sys_instances sys !! k = Some i →
    let s' := (callHook h {| this := i; world := sys_world sys |}).2 in
    step sys {| sys_world := world s';
                sys_instances := <[k := this s']> (sys_instances sys) |}.

Definition reachable (sys : System) : Prop := rtc step initialSystem sys.

Definition SystemInv (sys : System) : Prop :=
  WorldInv (sys_world sys) ∧ Forall (InstInv (sys_world sys)) (sys_instances sys).


(** [this.state] when it holds no handle: the object [{}]. *)
Definition noHandles : IJSSManagerState :=
  {| dynamicStyleSheet := None; staticStyleSheet := None |}.

(** What a hook may call on the handles of the state [st] of its receiver:
    the sheets manager on the static handle; [attach], [update], [detach] and
    [removeStyleSheet] on the dynamic handle, [update] with a truthy value;
    and the dispatch of events. It never compiles a sheet there. *)
Definition handle_event (st : option IJSSManagerState) (e : Event) : Prop :=
  match e with
  | EManagerAdd id | EManagerManage id | EManagerUnmanage id =>
      ∃ st' sheet, st = Some st' ∧ staticStyleSheet st' = Some sheet ∧ id = sheet_id sheet
  | ESheetAttach id | ESheetDetach id | ERemoveStyleSheet id =>
      ∃ st' sheet, st = Some st' ∧ dynamicStyleSheet st' = Some sheet ∧ id = sheet_id sheet
  | ESheetUpdate id data =>
      truthy data = true ∧
      ∃ st' sheet, st = Some st' ∧ dynamicStyleSheet st' = Some sheet ∧ id = sheet_id sheet
  | EDispatchEvent _ _ => True
  | _ => False
  end.

(** A call that leaves the receiver's handles, listeners and class as they
    are, creates nothing, and only calls on the handles. *)
Definition quiet (s s' : Sys) : Prop :=
  ∃ evs,
    trace (world s') = trace (world s) ++ evs ∧
    (∀ e, e ∈ evs → handle_event (state (this s)) e) ∧
    statics (world s') = statics (world s) ∧
    next_obj (world s') = next_obj (world s) ∧
    next_class (world s') = next_class (world s) ∧
    inst_class (this s') = inst_class (this s) ∧
    state (this s') = state (this s) ∧
    listeners (this s') = listeners (this s).

(** What a hook, or an event that is delivered, does to its receiver and to
    the world: either it creates nothing, calls on the handles the receiver
    held, and leaves the state as it is or replaces it by one without handle
    ([ngOnInit]); or it is [ngAfterContentInit] on a class with a style
    object, which consults the cache, compiles the dynamic sheet and sets the
    state. *)
Definition hook_effect (s s' : Sys) : Prop :=
  inst_class (this s') = inst_class (this s) ∧
  next_class (world s') = next_class (world s) ∧
  ((∃ evs,
      trace (world s') = trace (world s) ++ evs ∧
      (∀ e, e ∈ evs → handle_event (state (this s)) e) ∧
      statics (world s') = statics (world s) ∧
      next_obj (world s') = next_obj (world s) ∧
      (state (this s') = Some noHandles ∨
       state (this s') = state (this s) ∧ listeners (this s') = listeners (this s)))
   ∨
   (∃ styles sep key w1,
      class_styles (inst_class (this s)) = Some styles ∧
      consulted (inst_class (this s)) styles (world s) sep key w1 ∧
      trace (world s') = trace w1 ++ content_events sep (next_obj w1) ∧
      statics (world s') = statics w1 ∧
      next_obj (world s') = content_next sep (next_obj w1) ∧
      state (this s') = Some (content_state sep (next_obj w1)) ∧
      listeners (this s') = listeners (this s))).

(** The handles of an instance are what they are held as: the static one
    was compiled without the [link] option, the dynamic one with it. *)
Definition TypedHandles (w : World) (i : Instance) : Prop :=
  ∀ st, state i = Some st →
    (∀ sheet, staticStyleSheet st = Some sheet →
              ECreateStyleSheet (sheet_id sheet) false ∈ trace w) ∧
    (∀ sheet, dynamicStyleSheet st = Some sheet →
              ECreateStyleSheet (sheet_id sheet) true ∈ trace w).

(** A sheet is compiled as a static or as a dynamic one, not as both. *)
Definition OneKind (t : list Event) : Prop :=
  ∀ id link link',
    ECreateStyleSheet id link ∈ t → ECreateStyleSheet id link' ∈ t → link = link'.

(** The sheets manager is called on static sheets only; [attach], [update],
    [detach] and [removeStyleSheet] on dynamic sheets only, [update] with a
    truthy value. *)
Definition allowed (t : list Event) (e : Event) : Prop :=
  match e with
  | EManagerAdd id | EManagerManage id | EManagerUnmanage id =>
      ECreateStyleSheet id false ∈ t
  | ESheetAttach id | ESheetDetach id | ERemoveStyleSheet id =>
      ECreateStyleSheet id true ∈ t
  | ESheetUpdate id data => ECreateStyleSheet id true ∈ t ∧ truthy data = true
  | _ => True
  end.

Definition Disciplined (t : list Event) : Prop := ∀ e, e ∈ t → allowed t e.

(** An instance that listens has a state. *)
Definition Listening (i : Instance) : Prop := listeners i ≠ [] → is_Some (state i).

(** No two instances hold the same dynamic sheet. *)
Definition OwnDynamic (instances : list Instance) : Prop :=
  ∀ k1 k2 i1 i2 st1 st2 d1 d2,
    k1 ≠ k2 → instances !! k1 = Some i1 → instances !! k2 = Some i2 →
    state i1 = Some st1 → state i2 = Some st2 →
    dynamicStyleSheet st1 = Some d1 → dynamicStyleSheet st2 = Some d2 →
    sheet_id d1 ≠ sheet_id d2.

Definition HandlesInv (sys : System) : Prop :=
  OneKind (trace (sys_world sys)) ∧
  Disciplined (trace (sys_world sys)) ∧
  Forall (TypedHandles (sys_world sys)) (sys_instances sys) ∧
  Forall Listening (sys_instances sys) ∧
  OwnDynamic (sys_instances sys).

(** The steps of the program as functions: a new instance of a class, and a
    hook called on (or an event delivered to) the [k]-th instance. *)
Definition createInstance (cls : JSSManagerClass) (sys : System) : System :=
  {| sys_world := sys_world sys; sys_instances := sys_instances sys ++ [newInstance cls] |}.

Definition runHook (h : Hook) (k : nat) (sys : System) : System :=
  match sys_instances sys !! k with
  | Some i =>
      let s' := (callHook h {| this := i; world := sys_world sys |}).2 in
      {| sys_world := world s'; sys_instances := <[k := this s']> (sys_instances sys) |}
  | None => sys
  end.

(** Name generators and style objects used in examples. *)
Definition sample_uuid (n : nat) : string := "id" +:+ pretty n +:+ "-".
Definition sample_className (id : nat) (key : string) : string := key +:+ "-" +:+ pretty id.

Definition sample_rules : ICSSRules :=
  {[ "button" := Nested {[ "color" := Literal "red";
                           "width" := Resolver (fun _ => "1px") ]} ]}.

Definition sample_styles (ref : nat) : ComponentStyles :=
  {| style_ref := ref; style_keys := ["button"]; style_rules := sample_rules |}.

Definition emptyRule_styles : ComponentStyles :=
  {| style_ref := 1; style_keys := ["a"]; style_rules := {[ "a" := Nested ∅ ]} |}.

Ltac unfold_M :=
  cbv [run mbind M_bind mret M_ret getThis getWorld modifyThis modifyWorld throw log
       reported].

Ltac norm := repeat (progress (simpl; rewrite ?lookup_insert_eq)).


(** ** The class-name merge *)

Lemma map_fold_mergeClassName (classNames dyn : gmap string string) key :
  map_fold mergeClassName classNames dyn !! key
  = match classNames !! key, dyn !! key with
    | Some s, Some d => Some (s +:+ " " +:+ d)
    | Some s, None => Some s
    | None, d => d
    end.
Proof.
  induction dyn as [|k x m Hk Hfold IH] using map_first_key_ind.
  - rewrite map_fold_empty, lookup_empty. by destruct (classNames !! key).
  - rewrite map_fold_insert_first_key by done.
    unfold mergeClassName at 1.
    destruct (decide (k = key)) as [->|Hne].
    + rewrite !lookup_insert_eq, IH, Hk. by destruct (classNames !! key).
    + rewrite !lookup_insert_ne by done. apply IH.
Qed.

Lemma mergeClassNames_lookup st key :
  mergeClassNames st !! key
  = match classesOf (staticStyleSheet st) !! key, classesOf (dynamicStyleSheet st) !! key with
    | Some s, Some d => Some (s +:+ " " +:+ d)
    | Some s, None => Some s
    | None, d => d
    end.
Proof.
  unfold mergeClassNames, classesOf. destruct (dynamicStyleSheet st) as [d|].
  - apply map_fold_mergeClassName.
  - rewrite lookup_empty. by destruct (_ !! key).
Qed.


(** ** Style separation *)

Lemma rule_size_lookup (t : ICSSRules) key r :
  t !! key = Some r → rule_size r < rule_size (Nested t).
Proof.
  intros Hk. simpl.
  rewrite <-(insert_delete_id t key r) by done.
  rewrite map_fold_insert_L; [lia| intros; lia |apply lookup_delete_eq].
Qed.

(** Induction on rules: a nested tree has the property when the rules it
    binds have it. *)
Lemma Rule_nested_ind (P : Rule → Prop) :
  (∀ s, P (Literal s)) → (∀ f, P (Resolver f)) →
  (∀ t, (∀ key r, t !! key = Some r → P r) → P (Nested t)) → ∀ r, P r.
Proof.
  intros Hl Hf Hn r.
  remember (rule_size r) as n eqn:Hsize. revert r Hsize.
  induction n as [n IH] using lt_wf_ind. intros [s|f|t] ->; [done..|].
  apply Hn. intros key r Hk. eapply IH; [|done]. by eapply rule_size_lookup.
Qed.

Lemma merge_opt_union_empty_r (ts : ICSSRules) : merge opt_union ts ∅ = ts.
Proof.
  apply map_eq. intros key. rewrite lookup_merge, lookup_empty.
  by destruct (ts !! key).
Qed.

Lemma merge_opt_union_empty_l (td : ICSSRules) : merge opt_union ∅ td = td.
Proof.
  apply map_eq. intros key. rewrite lookup_merge, lookup_empty.
  by destruct (td !! key).
Qed.

Lemma merge_opt_union_nonempty (ts td : ICSSRules) :
  ts ≠ ∅ → merge opt_union ts td ≠ ∅.
Proof.
  intros Hts Hm. apply Hts, map_empty. intros key.
  assert (merge opt_union ts td !! key = None) as Hk by (by rewrite Hm, lookup_empty).
  rewrite lookup_merge in Hk. by destruct (ts !! key), (td !! key).
Qed.

(** The two sides of a rule, put back together, are the rule pruned. *)
Lemma separate_rule_union r :
  opt_union (getStaticRule r) (getDynamicRule r) = pruneRule r.
Proof.
  induction r as [s|f|t IH] using Rule_nested_ind; [done..|].
  assert (merge opt_union (omap getStaticRule t) (omap getDynamicRule t)
          = omap pruneRule t) as Hm.
  { apply map_eq. intros key. rewrite lookup_merge, !lookup_omap.
    destruct (t !! key) as [r|] eqn:Hk; simpl; [|done].
    rewrite <-(IH key r Hk).
    by destruct (getStaticRule r), (getDynamicRule r). }
  simpl. rewrite <-Hm.
  destruct (decide (omap getStaticRule t = ∅)) as [Hs|Hs],
           (decide (omap getDynamicRule t = ∅)) as [Hd|Hd]; simpl.
  - rewrite Hs, Hd, merge_opt_union_empty_r. by rewrite decide_True.
  - rewrite Hs, merge_opt_union_empty_l. by rewrite decide_False.
  - rewrite Hd, merge_opt_union_empty_r. by rewrite decide_False.
  - rewrite decide_False; [done|]. by apply merge_opt_union_nonempty.
Qed.

Lemma separate_styles_union (t : ICSSRules) :
  styles_union (getStaticStyles t) (getDynamicStyles t) = omap pruneRule t.
Proof.
  pose proof (separate_rule_union (Nested t)) as H. simpl in H.
  unfold getStaticStyles, getDynamicStyles.
  destruct (decide (omap getStaticRule t = ∅)) as [Hs|Hs],
           (decide (omap getDynamicRule t = ∅)) as [Hd|Hd]; simpl in *.
  all: destruct (decide (omap pruneRule t = ∅)) as [Hp|Hp]; simplify_eq; done.
Qed.

(** Pruning changes nothing in a rule that has no empty nested tree. *)
Lemma pruneRule_id r :
  (∀ path, rule_at path r ≠ Some (Nested ∅)) → pruneRule r = Some r.
Proof.
  induction r as [s|f|t IH] using Rule_nested_ind; [done..|].
  intros Hne. simpl.
  assert (omap pruneRule t = t) as ->.
  { apply map_eq. intros key. rewrite lookup_omap.
    destruct (t !! key) as [r|] eqn:Hk; simpl; [|done].
    apply (IH key r Hk). intros path Hp. apply (Hne (key :: path)).
    simpl. by rewrite Hk. }
  rewrite decide_False; [done|]. intros ->. by apply (Hne []).
Qed.

Lemma prune_styles_id (t : ICSSRules) :
  (∀ key r path, t !! key = Some r → rule_at path r ≠ Some (Nested ∅)) →
  omap pruneRule t = t.
Proof.
  intros Hne. apply map_eq. intros key. rewrite lookup_omap.
  destruct (t !! key) as [r|] eqn:Hk; simpl; [|done].
  apply pruneRule_id. intros path. by apply (Hne key).
Qed.

(** A rule of the static side is the static side of the rule at the same
    position of the original; likewise for the dynamic side. *)
Lemma static_rule_at path : ∀ r s rs,
  getStaticRule r = Some s → rule_at path s = Some rs →
  ∃ ro, rule_at path r = Some ro ∧ getStaticRule ro = Some rs.
Proof.
  induction path as [|key path IH]; intros r s rs Hs Hat; simpl in *.
  - simplify_eq. eauto.
  - destruct r as [l|f|t]; simpl in Hs; simplify_eq; try done.
    destruct (decide (omap getStaticRule t = ∅)); simplify_eq.
    rewrite lookup_omap in Hat.
    destruct (t !! key) as [r'|]; simpl in *; [|done].
    destruct (getStaticRule r') as [s'|] eqn:Hs'; simpl in *; [|done].
    by apply (IH r' s').
Qed.

Lemma dynamic_rule_at path : ∀ r d rd,
  getDynamicRule r = Some d → rule_at path d = Some rd →
  ∃ ro, rule_at path r = Some ro ∧ getDynamicRule ro = Some rd.
Proof.
  induction path as [|key path IH]; intros r d rd Hd Hat; simpl in *.
  - simplify_eq. eauto.
  - destruct r as [l|f|t]; simpl in Hd; simplify_eq; try done.
    destruct (decide (omap getDynamicRule t = ∅)); simplify_eq.
    rewrite lookup_omap in Hat.
    destruct (t !! key) as [r'|]; simpl in *; [|done].
    destruct (getDynamicRule r') as [d'|] eqn:Hd'; simpl in *; [|done].
    by apply (IH r' d').
Qed.

Lemma separate_rule_both r rs rd :
  getStaticRule r = Some rs → getDynamicRule r = Some rd →
  ∃ ts td, rs = Nested ts ∧ rd = Nested td.
Proof.
  destruct r as [l|f|t]; simpl; [done..|]. intros Hs Hd.
  destruct (decide (omap getStaticRule t = ∅)),
           (decide (omap getDynamicRule t = ∅)); simplify_eq. eauto.
Qed.

(** At a position where both sides bind a name, both bind it to a nested
    tree. *)
Lemma separate_styles_both (t : ICSSRules) path rs rd :
  rule_at path (Nested (default ∅ (getStaticStyles t))) = Some rs →
  rule_at path (Nested (default ∅ (getDynamicStyles t))) = Some rd →
  ∃ ts td, rs = Nested ts ∧ rd = Nested td.
Proof.
  destruct path as [|key path]; [simpl; intros; simplify_eq; eauto|].
  unfold getStaticStyles, getDynamicStyles. intros Hs Hd.
  destruct (decide (omap getStaticRule t = ∅)) as [|Hse];
    [simpl in Hs; by rewrite lookup_empty in Hs|].
  destruct (decide (omap getDynamicRule t = ∅)) as [|Hde];
    [simpl in Hd; by rewrite lookup_empty in Hd|].
  destruct (static_rule_at (key :: path) (Nested t) _ rs
              ltac:(simpl; by rewrite decide_False) Hs) as (ro & Hro & Hrs).
  destruct (dynamic_rule_at (key :: path) (Nested t) _ rd
              ltac:(simpl; by rewrite decide_False) Hd) as (ro' & Hro' & Hrd).
  simplify_eq. by eapply separate_rule_both.
Qed.

Lemma getStaticStyles_nonempty t s : getStaticStyles t = Some s → isEmptyObject s = false.
Proof.
  unfold getStaticStyles, isEmptyObject. intros H.
  destruct (decide (omap getStaticRule t = ∅)); simplify_eq. by apply bool_decide_eq_false.
Qed.

Lemma getDynamicStyles_nonempty t s : getDynamicStyles t = Some s → isEmptyObject s = false.
Proof.
  unfold getDynamicStyles, isEmptyObject. intros H.
  destruct (decide (omap getDynamicRule t = ∅)); simplify_eq. by apply bool_decide_eq_false.
Qed.

(** [separateStyles] never fails; its result and its effects. *)
Lemma separateStyles_run styles s :
  separateStyles (Some styles) s
  = (Ok (separated styles (next_obj (world s))),
     {| this := this s; world := separate_world styles (world s) |}).
Proof.
  unfold separateStyles, jss_createStyleSheet, separated, separate_world,
    separate_events, separate_next, separate_registry. unfold_M. simpl.
  destruct (getDynamicStyles (style_rules styles)) as [d|] eqn:Hd;
    [rewrite (getDynamicStyles_nonempty _ _ Hd)|];
    (destruct (getStaticStyles (style_rules styles)) as [t|] eqn:Hs;
     [rewrite (getStaticStyles_nonempty _ _ Hs)|]); simpl.
  all: destruct s as [i w], w; unfold with_trace, with_registry, bump_obj; simpl;
    rewrite <-?app_assoc; simpl.
  all: reflexivity.
Qed.

(** C5, as the code has it. [separateStyles] always returns; the union of
    the static and the dynamic subtree it produces, at every nesting level,
    is the original tree without its nested trees that hold no literal and
    no resolver at any depth, hence the original tree itself when no nested
    tree of it is empty; and a name that both subtrees bind at the same
    position is bound to a nested tree in both, never to a literal or a
    resolver. *)
Theorem separateStyles_recombines styles s :
  ∃ sep s',
    separateStyles (Some styles) s = (Ok sep, s') ∧
    styles_union (sep_staticStyles sep) (sep_dynamicStyles sep)
    = omap pruneRule (style_rules styles) ∧
    ((∀ key r path, style_rules styles !! key = Some r →
                    rule_at path r ≠ Some (Nested ∅)) →
     styles_union (sep_staticStyles sep) (sep_dynamicStyles sep) = style_rules styles) ∧
    (∀ path rs rd,
       rule_at path (Nested (default ∅ (sep_staticStyles sep))) = Some rs →
       rule_at path (Nested (default ∅ (sep_dynamicStyles sep))) = Some rd →
       ∃ ts td, rs = Nested ts ∧ rd = Nested td).
Proof.
  eexists _, _. split; [apply separateStyles_run|]. simpl.
  split; [apply separate_styles_union|]. split.
  - intros Hne. rewrite separate_styles_union. by apply prune_styles_id.
  - apply separate_styles_both.
Qed.

(** ** The hooks, one by one *)

Lemma ngOnInit_new cls w :
  ngOnInit {| this := newInstance cls; world := w |}
  = (Ok tt, {| this := initialized cls;
               world := with_trace (fun t => t ++ [EDispatchEvent registerComponent JsNull;
                                                   EDispatchEvent getConfig (JsObj [])]) w |}).
Proof.
  unfold ngOnInit, dispatchEvent, dispatch_updateStylesEvent, receiveEvent, deliver,
    onGetConfig, getState.
  unfold_M. simpl. unfold initialized, with_trace. simpl.
  by rewrite <-app_assoc.
Qed.

(** The consultation of the cache returns, whatever the class has stored so
    far. *)
Lemma consult_general s styles :
  class_styles (inst_class (this s)) = Some styles →
  ∃ sep key w',
    separatedStylesInstance_of_cache s
    = (Ok sep, {| this := set_instanceId (Some key) (this s); world := w' |}) ∧
    consulted (inst_class (this s)) styles (world s) sep key w'.
Proof.
  destruct s as [[[cid cs cb] cfg st iid cn ls] [nc nu no sts att reg man ren tr]].
  simpl. intros ->.
  unfold separatedStylesInstance_of_cache, getStatics, setStatics, uuid, weakMap_set,
    weakMap_get, consulted, classStatics, cached.
  unfold_M. simpl.
  remember (default emptyStatics (sts !! cid)) as c0 eqn:Hc0.
  destruct (styleMap c0 !! style_ref styles) as [sid|] eqn:Hsid;
    [simpl; destruct (String.eqb sid "") eqn:Hsne|]; norm; rewrite <-?Hc0, ?Hsid; norm.
  all: destruct (componentMap c0 !! Component) as [cmp|] eqn:Hcmp;
    [simpl; destruct (String.eqb cmp "") eqn:Hcne|]; norm; rewrite <-?Hc0, ?Hsid, ?Hcmp; norm.
  all: match goal with
       | |- context [separatedStyles ?c !! ?k] =>
           destruct (separatedStyles c !! k) as [sep0|] eqn:H3
       end; rewrite ?separateStyles_run; norm; rewrite <-?Hc0, ?Hsid, ?Hcmp; norm.
  all: eexists _, _, _; split; [reflexivity|].
  all: repeat match goal with |- _ ∧ _ => split end; try done.
  all: try (intros c Hc; simpl; by rewrite ?lookup_insert_ne by done).
  all: norm; rewrite <-?Hc0; try (by rewrite insert_id); try done.
  all: try (left; by repeat split).
  all: try (right; by repeat split).
  all: intros Hu.
  all: try apply String.eqb_neq in Hsne.
  all: try apply String.eqb_neq in Hcne.
  all: first
    [ eexists _, _, _; split; [reflexivity|]; norm; rewrite ?Hsid, ?Hcmp;
      repeat match goal with |- _ ∧ _ => split end; by eauto
    | exists c0, sid, cmp; split;
      [destruct (sts !! cid); simpl in Hc0; subst c0;
       [done|simpl in Hsid; by rewrite lookup_empty in Hsid]
      |by repeat split] ].
Qed.


(** [ngAfterContentInit], given what the consultation of the cache gives. *)
Lemma ngAfterContentInit_run s styles sep key w1 :
  class_styles (inst_class (this s)) = Some styles →
  separatedStylesInstance_of_cache s
  = (Ok sep, {| this := set_instanceId (Some key) (this s); world := w1 |}) →
  ngAfterContentInit s
  = (Ok tt,
     {| this :=
          set_className
            (mergeClassNames (content_state sep (next_obj w1))
             !! default "undefined" (head (style_keys styles)))
            (set_state (Some (content_state sep (next_obj w1)))
               (set_instanceId (Some key) (this s)));
        world := content_world sep w1 |}).
Proof.
  intros Hstyles Hconsult.
  unfold ngAfterContentInit. unfold mbind at 1. unfold M_bind at 1. rewrite Hconsult.
  destruct s as [[[cid cs cb] cfg st iid cn ls] w]. simpl in Hstyles. subst cs.
  unfold jss_createStyleSheet, getClassNames, getState, firstKey, content_state,
    content_world, content_events, content_next, content_registry.
  unfold_M. simpl.
  destruct (sep_dynamicStyles sep) as [d|]; simpl.
  all: destruct w1; unfold with_trace, with_registry, with_next_obj, bump_obj; simpl;
    rewrite ?app_nil_r; reflexivity.
Qed.

(** [ngAfterViewInit] on an instance that has a state. *)
Lemma ngAfterViewInit_run s st :
  state (this s) = Some st →
  ∃ w',
    ngAfterViewInit s = (Ok tt, {| this := this s; world := w' |}) ∧
    trace w' = trace (world s) ++ view_events st (designSystem_of (config (this s))) ∧
    statics w' = statics (world s) ∧ next_obj w' = next_obj (world s) ∧
    next_uuid w' = next_uuid (world s) ∧ next_class w' = next_class (world s) ∧
    registry w' = registry (world s).
Proof.
  destruct s as [[cls cfg st0 iid cn ls] [nc nu no sts att reg man ren tr]].
  simpl. intros ->.
  unfold ngAfterViewInit, getState, stylesheetManager_add, stylesheetManager_manage,
    sheet_attach, sheet_update, designSystem, view_events.
  destruct st as [[dsheet|] [sheet|]]; unfold_M; simpl.
  all: repeat match goal with
       | |- context [match ?m !! ?k with _ => _ end] => destruct (m !! k) eqn:?; simpl
       | |- context [decide (?n = 0)] => destruct (decide (n = 0)); simpl
       end.
  all: eexists; split; [reflexivity|]; simpl; rewrite <-?app_assoc, ?app_nil_r; done.
Qed.

Lemma listens_other (name : EventName) (ls : list Listener) :
  name ≠ getConfig → name ≠ update → filter (fun l => listens l = name) ls = [].
Proof.
  intros H1 H2. induction ls as [|[] ls IH]; [done|..]; simpl.
  - rewrite filter_cons_False by (simpl; congruence). done.
  - rewrite filter_cons_False by (simpl; congruence). done.
Qed.

(** [ngOnDestroy] on an instance that has a state: it returns, keeps the
    instance as it is (its listeners too), and detaches and forgets the
    dynamic sheet. *)
Lemma ngOnDestroy_run s st :
  state (this s) = Some st →
  ∃ w',
    ngOnDestroy s = (Ok tt, {| this := this s; world := w' |}) ∧
    trace w' = trace (world s) ++ destroy_events st ∧
    statics w' = statics (world s) ∧ next_obj w' = next_obj (world s) ∧
    next_uuid w' = next_uuid (world s) ∧ next_class w' = next_class (world s) ∧
    (∀ d, dynamicStyleSheet st = Some d →
          (sheet_id d ∉ attached w') ∧ (sheet_id d ∉ registry w')) ∧
    (staticStyleSheet st = None → dynamicStyleSheet st = None →
     w' = with_trace (fun t => t ++ [EDispatchEvent deregisterComponent JsNull]) (world s)).
Proof.
  destruct s as [[cls cfg st0 iid cn ls] [nc nu no sts att reg man ren tr]].
  simpl. intros ->.
  unfold ngOnDestroy, hasStaticStyleSheet, hasDynamicStyleSheet, getState,
    stylesheetManager_unmanage, sheet_detach, jss_removeStyleSheet, dispatchEvent,
    receiveEvent, deliver, destroy_events.
  pose proof (listens_other deregisterComponent ls ltac:(done) ltac:(done)) as Hf.
  destruct st as [[dsheet|] [sheet|]]; unfold_M; cbn -[filter].
  all: repeat match goal with
       | |- context [match ?m !! ?k with _ => _ end] =>
           destruct (m !! k) as [[|?]|] eqn:?; cbn -[filter]
       | |- context [decide (?n = 0)] => destruct (decide (n = 0)); cbn -[filter]
       end.
  all: rewrite Hf; simpl.
  all: eexists; split; [reflexivity|]; simpl; rewrite <-?app_assoc, ?app_nil_r.
  all: repeat match goal with |- _ ∧ _ => split end; try done.
  all: try (intros d [= <-]; split; intros [_ Hd]%elem_of_difference;
            by apply Hd, elem_of_singleton).
Qed.

(** The listener of [getConfig] on an instance that [ngOnInit] has
    initialised: the configuration is stored, and the dynamic sheet, when the
    instance has one, is evaluated against it. *)
Lemma receive_getConfig s st detail :
  listeners (this s) = [GetConfigListener; UpdateListener] →
  state (this s) = Some st →
  receiveEvent getConfig detail s
  = (Ok tt, {| this := set_config detail (this s);
               world := config_world st detail (world s) |}).
Proof.
  destruct s as [[cls cfg st0 iid cn ls] w]. simpl. intros -> ->.
  unfold receiveEvent, deliver, onGetConfig, getState, designSystem, sheet_update,
    config_world.
  unfold_M. simpl. unfold_M. simpl. by destruct (dynamicStyleSheet st).
Qed.

(** ** Mounting *)

(** Mounting a new instance of a class that has a style object: the three
    hooks return, and the world changes by the consultation of the cache, the
    creation of the dynamic sheet, and the calls of [ngAfterViewInit], in
    this order. *)
Lemma mount_run cls styles w :
  class_styles cls = Some styles →
  let w0 := with_trace (fun t => t ++ [EDispatchEvent registerComponent JsNull;
                                       EDispatchEvent getConfig (JsObj [])]) w in
  ∃ sep key w1 w3 st,
    separatedStylesInstance_of_cache {| this := initialized cls; world := w0 |}
    = (Ok sep, {| this := set_instanceId (Some key) (initialized cls); world := w1 |}) ∧
    consulted cls styles w0 sep key w1 ∧
    st = content_state sep (next_obj w1) ∧
    mount {| this := newInstance cls; world := w |}
    = (Ok tt,
       {| this :=
            set_className
              (mergeClassNames st !! default "undefined" (head (style_keys styles)))
              (set_state (Some st) (set_instanceId (Some key) (initialized cls)));
          world := w3 |}) ∧
    trace w3 = trace w1 ++ content_events sep (next_obj w1) ++ view_events st (JsObj []) ∧
    statics w3 = statics w1 ∧
    next_obj w3 = content_next sep (next_obj w1) ∧
    next_class w3 = next_class w1.
Proof.
  intros Hstyles w0.
  destruct (consult_general {| this := initialized cls; world := w0 |} styles Hstyles)
    as (sep & key & w1 & Hconsult & Hfacts).
  simpl in Hconsult, Hfacts.
  pose proof (ngAfterContentInit_run {| this := initialized cls; world := w0 |}
                styles sep key w1 Hstyles Hconsult) as Hcontent.
  simpl in Hcontent.
  edestruct (ngAfterViewInit_run
               {| this :=
                    set_className
                      (mergeClassNames (content_state sep (next_obj w1))
                       !! default "undefined" (head (style_keys styles)))
                      (set_state (Some (content_state sep (next_obj w1)))
                         (set_instanceId (Some key) (initialized cls)));
                  world := content_world sep w1 |})
    as (w3 & Hview & Htrace & Hstatics & Hobj & _ & Hclass & _); [reflexivity|].
  exists sep, key, w1, w3, (content_state sep (next_obj w1)).
  split; [done|]. split; [done|]. split; [done|]. split.
  - unfold mount. unfold mbind, M_bind. rewrite ngOnInit_new.
    fold w0. rewrite Hcontent. exact Hview.
  - simpl in *. rewrite Htrace, <-app_assoc. done.
Qed.

(** ** Events reaching an instance, and the hooks on any instance *)

Lemma forEach_iter {A} (l : list A) (f : A → M unit) (g : Sys → Sys) : ∀ s,
  (∀ x s', x ∈ l → f x s' = (Ok tt, g s')) →
  forEach l f s = (Ok tt, Nat.iter (length l) g s).
Proof.
  induction l as [|x l IH]; intros s Hf; [done|].
  simpl. unfold mbind, M_bind. rewrite Hf by apply list_elem_of_here.
  rewrite IH by (intros; apply Hf; by apply list_elem_of_further).
  by rewrite Nat.iter_swap.
Qed.

Lemma reported_onGetConfig detail s :
  reported (onGetConfig detail) s = (Ok tt, received detail s).
Proof.
  destruct s as [[cls cfg st iid cn ls] w].
  unfold onGetConfig, getState, designSystem, sheet_update, received, config_world.
  unfold_M. simpl. destruct st as [[[d|] s]|]; done.
Qed.

Lemma dispatch_updateStylesEvent_run s :
  dispatch_updateStylesEvent s = (Ok tt, refreshed s).
Proof.
  unfold dispatch_updateStylesEvent, deliver, refreshed. unfold_M.
  rewrite (forEach_iter _ _ (received (JsObj []))); [done|].
  intros x s' _. apply reported_onGetConfig.
Qed.

Lemma listens_filter (name : EventName) (ls : list Listener) l :
  l ∈ filter (fun l => listens l = name) ls → listens l = name.
Proof. by intros [? ?]%list_elem_of_filter. Qed.

(** An event reaches an instance, whatever its listeners and its state. *)
Lemma receiveEvent_run name detail s :
  receiveEvent name detail s
  = (Ok tt,
     Nat.iter (length (filter (fun l => listens l = name) (listeners (this s))))
       (match name with
        | getConfig => received detail
        | update => refreshed
        | _ => id
        end) s).
Proof.
  unfold receiveEvent, deliver. unfold_M.
  apply forEach_iter. intros l s' Hl%listens_filter.
  destruct l, name; simplify_eq.
  - apply reported_onGetConfig.
  - unfold reported, onUpdate. by rewrite dispatch_updateStylesEvent_run.
Qed.

(** [ngOnInit] on any instance. *)
Lemma ngOnInit_run s :
  let none := {| dynamicStyleSheet := None; staticStyleSheet := None |} in
  let s2 := {| this := add_listener GetConfigListener (set_state (Some none) (this s));
               world := with_trace (fun t => t ++ [EDispatchEvent registerComponent JsNull])
                          (world s) |} in
  ngOnInit s
  = (Ok tt, {| this := add_listener UpdateListener (this (refreshed s2));
               world := world (refreshed s2) |}).
Proof.
  intros none s2. unfold ngOnInit, dispatchEvent.
  unfold mbind at 1 2 3 4 5. unfold M_bind at 1 2 3 4 5.
  unfold modifyThis at 1 2. unfold log at 1. unfold modifyWorld at 1. cbn [this world].
  rewrite receiveEvent_run. cbn [this world listeners add_listener set_state].
  rewrite listens_other by done. cbn [length Nat.iter].
  fold none. fold s2. rewrite dispatch_updateStylesEvent_run. done.
Qed.

Lemma ngAfterContentInit_no_styles s :
  class_styles (inst_class (this s)) = None →
  ngAfterContentInit s
  = (Throw (TypeError "Invalid value used as weak map key"),
     {| this := this s; world := bump_uuid (world s) |}).
Proof.
  destruct s as [[[cid cs cb] cfg st iid cn ls] w]. simpl. intros ->.
  unfold ngAfterContentInit, separatedStylesInstance_of_cache, getStatics, setStatics,
    uuid, weakMap_set, weakMap_get.
  unfold_M. simpl. done.
Qed.

Lemma ngAfterViewInit_no_state s :
  state (this s) = None →
  ngAfterViewInit s = (Throw (TypeError "Cannot read properties of undefined"), s).
Proof.
  destruct s as [[cls cfg st iid cn ls] w]. simpl. intros ->.
  unfold ngAfterViewInit, getState. unfold_M. done.
Qed.

Lemma ngOnDestroy_no_state s :
  state (this s) = None →
  ngOnDestroy s = (Throw (TypeError "Cannot read properties of undefined"), s).
Proof.
  destruct s as [[cls cfg st iid cn ls] w]. simpl. intros ->.
  unfold ngOnDestroy, hasStaticStyleSheet, getState. unfold_M. done.
Qed.

Lemma destroy_events_sheet st e id :
  e ∈ destroy_events st → event_sheet e = Some id →
  (∃ sheet, staticStyleSheet st = Some sheet ∧ id = sheet_id sheet) ∨
  (∃ sheet, dynamicStyleSheet st = Some sheet ∧ id = sheet_id sheet).
Proof.
  unfold destroy_events.
  destruct (staticStyleSheet st) as [s|], (dynamicStyleSheet st) as [d|]; simpl.
  all: rewrite ?elem_of_cons, elem_of_nil; intros He Hid.
  all: repeat match goal with H : _ ∨ _ |- _ => destruct H as [->|H] end; try done.
  all: simpl in Hid; simplify_eq; eauto.
Qed.

(** ** The invariant of reachable worlds *)

Lemma Ordered_app t evs :
  Ordered t →
  (∀ e id, e ∈ evs → event_sheet e = Some id →
           (∃ link, e = ECreateStyleSheet id link) ∨
           (∃ link, ECreateStyleSheet id link ∈ t)) →
  Ordered (t ++ evs).
Proof.
  intros Ht Hevs k e id Hk Hid.
  destruct (decide (k < length t)) as [Hlt|Hge].
  - rewrite lookup_app_l in Hk by done.
    destruct (Ht k e id Hk Hid) as [?|(j & link & Hj & Hjk)]; [by left|].
    right. exists j, link. split; [done|]. by apply lookup_app_l_Some.
  - rewrite lookup_app_r in Hk by lia.
    destruct (Hevs e id) as [?|[link Hin]]; [by eapply list_elem_of_lookup_2|done|by left|].
    right. apply list_elem_of_lookup_1 in Hin as [j Hj].
    exists j, link. split; [apply lookup_lt_Some in Hj; lia|]. by apply lookup_app_l_Some.
Qed.

Lemma WorldInv_initial : WorldInv initialWorld.
Proof.
  split; [|split]; simpl.
  - intros c st key sep sheet Hc. by rewrite lookup_empty in Hc.
  - intros e id He. by apply elem_of_nil in He.
  - intros k e id Hk. by rewrite lookup_nil in Hk.
Qed.

(** The invariant after more events: the caches hold created sheets, and
    each new event about a sheet is the creation of a new sheet or is about a
    sheet created earlier. *)
Lemma WorldInv_extend w w' evs :
  WorldInv w →
  trace w' = trace w ++ evs →
  (next_obj w ≤ next_obj w')%nat →
  (∀ c st key sep sheet,
     statics w' !! c = Some st → separatedStyles st !! key = Some sep →
     sep_staticStyleSheet sep = Some sheet →
     ECreateStyleSheet (sheet_id sheet) false ∈ trace w') →
  (∀ e id, e ∈ evs → event_sheet e = Some id →
           ((∃ link, e = ECreateStyleSheet id link) ∧ id < next_obj w') ∨
           (∃ link, ECreateStyleSheet id link ∈ trace w)) →
  WorldInv w'.
Proof.
  intros (H1 & H2 & H3) Htrace Hle Hcache Hevs. split; [done|]. split.
  - intros e id He Hid. rewrite Htrace in He. apply elem_of_app in He as [He|He].
    + pose proof (H2 e id He Hid). lia.
    + destruct (Hevs e id He Hid) as [[_ ?]|[link Hin]]; [done|].
      pose proof (H2 _ id Hin eq_refl). lia.
  - rewrite Htrace. apply Ordered_app; [done|].
    intros e id He Hid. destruct (Hevs e id He Hid) as [[? _]|?]; auto.
Qed.

Lemma WorldInv_dispatch w name detail :
  WorldInv w → WorldInv (with_trace (fun t => t ++ [EDispatchEvent name detail]) w).
Proof.
  intros Hw. apply (WorldInv_extend w _ [EDispatchEvent name detail]); [done..| |].
  - intros c st key sep sheet Hc Hk Hs. simpl. apply elem_of_app. left.
    destruct Hw as (H1 & _). by eapply H1.
  - intros e id ->%list_elem_of_singleton. done.
Qed.

Lemma classStatics_lookup c w st : statics w !! c = Some st → classStatics c w = st.
Proof. unfold classStatics. by intros ->. Qed.

Lemma classStatics_cache_Some c w key sep :
  separatedStyles (classStatics c w) !! key = Some sep →
  ∃ st, statics w !! c = Some st ∧ separatedStyles st !! key = Some sep.
Proof.
  unfold classStatics. destruct (statics w !! c) as [st|]; simpl; [eauto|].
  by rewrite lookup_empty.
Qed.

Lemma separate_events_created styles n sheet :
  sep_staticStyleSheet (separated styles n) = Some sheet →
  sheet_id sheet = S n ∧
  ECreateStyleSheet (S n) false ∈ separate_events styles n ∧
  separate_next styles n = S (S n).
Proof.
  unfold separated, separate_events, separate_next. simpl.
  destruct (getStaticStyles (style_rules styles)); simpl; [|done].
  intros [= <-]. simpl. split; [done|]. split; [|done].
  rewrite !elem_of_cons. eauto.
Qed.

Lemma separate_events_sheet styles n e id :
  e ∈ separate_events styles n → event_sheet e = Some id → id < separate_next styles n.
Proof.
  unfold separate_events, separate_next.
  destruct (getStaticStyles (style_rules styles)); simpl.
  - rewrite !elem_of_cons, elem_of_nil. intros [->|[->|[->|[]]]]; simpl; intros; simplify_eq. lia.
  - rewrite !elem_of_cons, elem_of_nil. intros [->|[->|[]]]; simpl; intros; simplify_eq.
Qed.

Lemma separate_next_le styles (n : nat) : (n ≤ separate_next styles n)%nat.
Proof. unfold separate_next. destruct (getStaticStyles _); lia. Qed.

(** A consultation of the cache keeps the invariant, and the static sheet
    of the object it returns has been created. *)
Lemma consulted_WorldInv cls styles w sep key w' :
  WorldInv w → consulted cls styles w sep key w' →
  WorldInv w' ∧
  trace w `prefix_of` trace w' ∧
  (∀ sheet, sep_staticStyleSheet sep = Some sheet →
            ECreateStyleSheet (sheet_id sheet) false ∈ trace w').
Proof.
  intros Hw (_ & _ & _ & _ & Hother & Hcache & Hcase & _).
  pose proof Hw as (H1 & H2 & H3).
  assert (∃ evs, trace w' = trace w ++ evs ∧ (next_obj w ≤ next_obj w')%nat ∧
                 ∀ e id, e ∈ evs → event_sheet e = Some id →
                         (∃ link, e = ECreateStyleSheet id link) ∧ id < next_obj w')
    as (evs & Hevs & Hle & Hnew).
  { destruct Hcase as [(_ & -> & -> & _)|(_ & _ & -> & -> & _)]; simpl.
    - exists []. rewrite app_nil_r. split; [done|]. split; [done|].
      intros e id ?%elem_of_nil. done.
    - eexists. split; [done|]. split; [apply separate_next_le|].
      intros e id He Hid. split; [|by eapply separate_events_sheet].
      unfold separate_events in He. destruct (getStaticStyles (style_rules styles));
        simpl in He; rewrite ?elem_of_cons, elem_of_nil in He;
        destruct_or!; simplify_eq; simpl in Hid; simplify_eq; eauto. }
  assert (∀ sheet, sep_staticStyleSheet sep = Some sheet →
                   ECreateStyleSheet (sheet_id sheet) false ∈ trace w') as Hsep.
  { intros sheet Hsheet.
    destruct Hcase as [(Hhit & -> & _)|(_ & -> & -> & _)].
    - apply classStatics_cache_Some in Hhit as (st & Hst & Hk). by eapply H1.
    - apply separate_events_created in Hsheet as (-> & Hin & _).
      simpl. apply elem_of_app. by right. }
  split; [|split; [by exists evs|done]].
  apply (WorldInv_extend w w' evs); [done..| |].
  - intros c st k sep' sheet Hc Hk Hsheet.
    destruct (decide (c = class_id cls)) as [->|Hne].
    + rewrite (classStatics_lookup _ _ _ Hc) in Hcache. rewrite Hcache in Hk.
      destruct (decide (key = k)) as [->|Hkey].
      * rewrite lookup_insert_eq in Hk. simplify_eq. by apply Hsep.
      * rewrite lookup_insert_ne in Hk by done.
        apply classStatics_cache_Some in Hk as (st0 & Hst0 & Hk0).
        rewrite Hevs. apply elem_of_app. left. by eapply H1.
    + rewrite Hother in Hc by done.
      rewrite Hevs. apply elem_of_app. left. by eapply H1.
  - intros e id He Hid. left. by apply Hnew.
Qed.

Lemma content_state_static sep n sheet :
  staticStyleSheet (content_state sep n) = Some sheet → sep_staticStyleSheet sep = Some sheet.
Proof. done. Qed.

Lemma content_state_dynamic sep n sheet :
  dynamicStyleSheet (content_state sep n) = Some sheet →
  sheet_id sheet = n ∧ content_events sep n = [ECreateStyleSheet n true] ∧
  content_next sep n = S n.
Proof.
  unfold content_state, content_events, content_next. simpl.
  destruct (sep_dynamicStyles sep); simpl; [|done]. by intros [= <-].
Qed.

Lemma content_events_sheet sep n e id :
  e ∈ content_events sep n → event_sheet e = Some id →
  id = n ∧ e = ECreateStyleSheet n true ∧ content_next sep n = S n.
Proof.
  unfold content_events, content_next. destruct (sep_dynamicStyles sep).
  - intros ->%list_elem_of_singleton [= <-]. done.
  - by intros ?%elem_of_nil.
Qed.

Lemma content_next_le sep (n : nat) : (n ≤ content_next sep n)%nat.
Proof. unfold content_next. destruct (sep_dynamicStyles sep); lia. Qed.

Lemma view_events_sheet st ds e id :
  e ∈ view_events st ds → event_sheet e = Some id →
  (∃ sheet, staticStyleSheet st = Some sheet ∧ id = sheet_id sheet) ∨
  (∃ sheet, dynamicStyleSheet st = Some sheet ∧ id = sheet_id sheet).
Proof.
  unfold view_events.
  destruct (staticStyleSheet st) as [s|], (dynamicStyleSheet st) as [d|]; simpl.
  all: rewrite ?elem_of_cons, elem_of_nil; intros He Hid.
  all: repeat match goal with H : _ ∨ _ |- _ => destruct H as [->|H] end; try done.
  all: simpl in Hid; simplify_eq; eauto.
Qed.

Lemma InstInv_mono w w' i :
  trace w `prefix_of` trace w' → InstInv w i → InstInv w' i.
Proof.
  intros Hpre Hi st sheet Hst Hs. destruct (Hi st sheet Hst Hs) as [link Hin].
  exists link. by eapply elem_of_prefix.
Qed.

(** Events about handles the instance holds, added to the trace. *)
Lemma handle_events_inv t0 s i' w' evs :
  HookInv t0 s → state i' = state (this s) →
  trace w' = trace (world s) ++ evs →
  statics w' = statics (world s) → next_obj w' = next_obj (world s) →
  (∀ e id, e ∈ evs → event_sheet e = Some id →
           ∃ st sheet, state (this s) = Some st ∧ id = sheet_id sheet ∧
                       (staticStyleSheet st = Some sheet ∨ dynamicStyleSheet st = Some sheet)) →
  HookInv t0 {| this := i'; world := w' |}.
Proof.
  intros (Hw & Hi & Hpre) Hst Htrace Hstatics Hobj Hevs.
  split; [|split]; simpl.
  - apply (WorldInv_extend (world s) w' evs); [done|done|lia| |].
    + intros c st' k sep sheet Hc Hk Hs. rewrite Hstatics in Hc.
      rewrite Htrace. apply elem_of_app. left. destruct Hw as (H1 & _). by eapply H1.
    + intros e id He Hid. right.
      destruct (Hevs e id He Hid) as (st & sheet & Hs & -> & Hsheet). by eapply Hi.
  - intros st sheet Hst' Hs. rewrite Hst in Hst'.
    destruct (Hi st sheet Hst' Hs) as [link Hin]. exists link.
    rewrite Htrace. apply elem_of_app. by left.
  - rewrite Htrace. by apply prefix_app_r.
Qed.

Lemma received_inv t0 detail s : HookInv t0 s → HookInv t0 (received detail s).
Proof.
  intros Hs. unfold received, config_world.
  destruct (state (this s)) as [st|] eqn:Hst.
  - destruct (dynamicStyleSheet st) as [d|] eqn:Hd.
    + eapply (handle_events_inv t0 s _ _
                [ESheetUpdate (sheet_id d) (designSystem_of detail)]); [done..|].
      intros e id ->%list_elem_of_singleton [= <-]. eauto 10.
    + eapply (handle_events_inv t0 s _ _ []); [done|done|by rewrite app_nil_r|done|done|].
      by intros e id ?%elem_of_nil.
  - eapply (handle_events_inv t0 s _ _ []); [done|done|by rewrite app_nil_r|done|done|].
    by intros e id ?%elem_of_nil.
Qed.

Lemma iter_inv (P : Sys → Prop) (g : Sys → Sys) k s :
  (∀ s', P s' → P (g s')) → P s → P (Nat.iter k g s).
Proof. intros Hg Hs. induction k; simpl; auto. Qed.

Lemma dispatch_inv t0 name detail s :
  HookInv t0 s →
  HookInv t0 {| this := this s;
                world := with_trace (fun t => t ++ [EDispatchEvent name detail]) (world s) |}.
Proof.
  intros Hs.
  eapply (handle_events_inv t0 s _ _ [EDispatchEvent name detail]); [done..|].
  by intros e id ->%list_elem_of_singleton.
Qed.

Lemma refreshed_inv t0 s : HookInv t0 s → HookInv t0 (refreshed s).
Proof.
  intros Hs. unfold refreshed. apply iter_inv; [apply received_inv|].
  by apply (dispatch_inv t0 getConfig (JsObj [])).
Qed.

Lemma receiveEvent_inv t0 name detail s :
  HookInv t0 s → HookInv t0 (receiveEvent name detail s).2.
Proof.
  intros Hs. rewrite receiveEvent_run. cbn [snd]. apply iter_inv; [|done].
  destruct name; auto using received_inv, refreshed_inv.
Qed.

Lemma ngOnInit_inv t0 s : HookInv t0 s → HookInv t0 (ngOnInit s).2.
Proof.
  intros (Hw & Hi & Hpre). rewrite ngOnInit_run. cbn [snd].
  match goal with |- context [refreshed ?s2] =>
    assert (HookInv t0 (refreshed s2)) as (Hw' & Hi' & Hpre')
  end.
  { apply refreshed_inv. split; [by apply WorldInv_dispatch|]. split.
    - intros st sheet Hst [Hs|Hs]; simpl in Hst; simplify_eq; done.
    - simpl. by apply prefix_app_r. }
  done.
Qed.

Lemma ngAfterContentInit_inv t0 s : HookInv t0 s → HookInv t0 (ngAfterContentInit s).2.
Proof.
  intros (Hw & Hi & Hpre).
  destruct (class_styles (inst_class (this s))) as [styles|] eqn:Hstyles.
  - destruct (consult_general s styles Hstyles) as (sep & key & w1 & Hconsult & Hfacts).
    rewrite (ngAfterContentInit_run s styles sep key w1 Hstyles Hconsult). cbn [snd].
    destruct (consulted_WorldInv _ _ _ _ _ _ Hw Hfacts) as (Hw1 & Hpre1 & Hsep).
    pose proof (content_next_le sep (next_obj w1)) as Hle'.
    split; [|split]; simpl.
    + apply (WorldInv_extend w1 _ (content_events sep (next_obj w1))); [done..| |].
      * intros c st k sep' sheet Hc Hk Hs. simpl. apply elem_of_app. left.
        destruct Hw1 as (H1 & _). by eapply H1.
      * intros e id He Hid. left.
        apply (content_events_sheet _ _ _ _ He) in Hid as (-> & -> & Hnext).
        split; [eauto|]. simpl. fold (content_next sep (next_obj w1)). lia.
    + intros st sheet [= <-] [Hs|Hd].
      * exists false.
        change (trace (content_world sep w1))
          with (trace w1 ++ content_events sep (next_obj w1)).
        apply elem_of_app. left. apply Hsep. exact Hs.
      * apply content_state_dynamic in Hd as (-> & Hev & _).
        exists true.
        change (trace (content_world sep w1))
          with (trace w1 ++ content_events sep (next_obj w1)). rewrite Hev.
        apply elem_of_app. right. by apply list_elem_of_singleton.
    + apply prefix_app_r. by etrans.
  - rewrite (ngAfterContentInit_no_styles s Hstyles). cbn [snd].
    split; [|split]; simpl; done.
Qed.

Lemma ngAfterViewInit_inv t0 s : HookInv t0 s → HookInv t0 (ngAfterViewInit s).2.
Proof.
  intros Hs. destruct (state (this s)) as [st|] eqn:Hst.
  - destruct (ngAfterViewInit_run s st Hst) as (w' & -> & Htrace & Hstatics & Hobj & _).
    cbn [snd]. eapply handle_events_inv; eauto. intros e id He Hid.
    destruct (view_events_sheet _ _ _ _ He Hid) as [(sheet & ? & ->)|(sheet & ? & ->)];
      eauto 10.
  - rewrite (ngAfterViewInit_no_state s Hst). done.
Qed.

Lemma ngOnDestroy_inv t0 s : HookInv t0 s → HookInv t0 (ngOnDestroy s).2.
Proof.
  intros Hs. destruct (state (this s)) as [st|] eqn:Hst.
  - destruct (ngOnDestroy_run s st Hst) as (w' & -> & Htrace & Hstatics & Hobj & _).
    cbn [snd]. eapply handle_events_inv; eauto. intros e id He Hid.
    destruct (destroy_events_sheet _ _ _ He Hid) as [(sheet & ? & ->)|(sheet & ? & ->)];
      eauto 10.
  - rewrite (ngOnDestroy_no_state s Hst). done.
Qed.

Lemma callHook_inv t0 h s : HookInv t0 s → HookInv t0 (callHook h s).2.
Proof.
  destruct h; simpl;
    auto using ngOnInit_inv, ngAfterContentInit_inv, ngAfterViewInit_inv, ngOnDestroy_inv,
      receiveEvent_inv.
Qed.

Lemma bind_inv {A B} t0 (m : M A) (f : A → M B) s :
  (∀ s', HookInv t0 s' → HookInv t0 (m s').2) →
  (∀ a s', HookInv t0 s' → HookInv t0 (f a s').2) →
  HookInv t0 s → HookInv t0 ((m ≫= f) s).2.
Proof.
  intros Hm Hf Hs. unfold mbind, M_bind. specialize (Hm s Hs).
  destruct (m s) as [[a|e] s']; simpl in *; auto.
Qed.

Lemma mount_inv t0 s : HookInv t0 s → HookInv t0 (mount s).2.
Proof.
  intros Hs. unfold mount.
  apply bind_inv; [apply ngOnInit_inv| |done]. intros _ s1 Hs1.
  apply bind_inv; [apply ngAfterContentInit_inv| |done]. intros _ s2 Hs2.
  by apply ngAfterViewInit_inv.
Qed.

Lemma step_inv sys sys' : SystemInv sys → step sys sys' → SystemInv sys'.
Proof.
  intros [Hw Hinsts] Hstep. destruct Hstep as [sys styles base|sys cls|sys k i h Hk s'].
  - split; [|done]. destruct Hw as (H1 & H2 & H3). split; [|done]. simpl.
    intros c st key sep sheet [_ Hc]%lookup_delete_Some. by eapply H1.
  - split; [done|]. simpl. apply Forall_app. split; [done|].
    apply Forall_singleton. intros st sheet Hst. done.
  - assert (HookInv (trace (sys_world sys)) {| this := i; world := sys_world sys |}) as Hs.
    { split; [done|]. split; [|done]. simpl.
      by apply (Forall_lookup_1 _ _ _ _ Hinsts Hk). }
    apply (callHook_inv _ h) in Hs as (Hw' & Hi' & Hpre). fold s' in Hw', Hi', Hpre.
    split; [done|]. simpl. apply Forall_insert; [|done].
    eapply Forall_impl; [exact Hinsts|]. intros j. by apply InstInv_mono.
Qed.


(** Mounting a new instance in a reachable world: the handles it uses in
    [ngAfterViewInit] exist by then, the dynamic one is its own and has not
    been used before, and the world is again a reachable one. *)
Lemma mount_facts cls styles w :
  class_styles cls = Some styles → WorldInv w →
  ∃ s3 st created,
    mount {| this := newInstance cls; world := w |} = (Ok tt, s3) ∧
    state (this s3) = Some st ∧
    listeners (this s3) = [GetConfigListener; UpdateListener] ∧
    config (this s3) = JsObj [] ∧
    trace (world s3) = created ++ view_events st (JsObj []) ∧
    (∃ evs, created = trace w ++ evs) ∧
    (∀ sheet, staticStyleSheet st = Some sheet →
              ECreateStyleSheet (sheet_id sheet) false ∈ created) ∧
    (∀ sheet, dynamicStyleSheet st = Some sheet →
              ECreateStyleSheet (sheet_id sheet) true ∈ created ∧
              (∀ e, e ∈ created → event_sheet e = Some (sheet_id sheet) →
                    e = ECreateStyleSheet (sheet_id sheet) true) ∧
              (∀ s, staticStyleSheet st = Some s → sheet_id s ≠ sheet_id sheet)) ∧
    WorldInv (world s3).
Proof.
  intros Hstyles Hinv.
  assert (HookInv (trace w) {| this := newInstance cls; world := w |}) as Hhook.
  { split; [done|]. split; [|done]. intros st sheet Hst. done. }
  apply mount_inv in Hhook as (Hinv3 & _ & _).
  destruct (mount_run cls styles w Hstyles)
    as (sep & key & w1 & w3 & st & _ & Hfacts & -> & Hmount & Htrace & Hstatics & Hobj & _).
  rewrite Hmount in Hinv3. cbn [snd world] in Hinv3.
  apply (WorldInv_dispatch _ registerComponent JsNull) in Hinv.
  apply (WorldInv_dispatch _ getConfig (JsObj [])) in Hinv.
  assert (with_trace (λ t, t ++ [EDispatchEvent getConfig (JsObj [])])
            (with_trace (λ t, t ++ [EDispatchEvent registerComponent JsNull]) w)
          = with_trace (λ t, t ++ [EDispatchEvent registerComponent JsNull;
                                   EDispatchEvent getConfig (JsObj [])]) w) as Hw0.
  { destruct w. unfold with_trace. simpl. by rewrite <-app_assoc. }
  rewrite Hw0 in Hinv. clear Hw0.
  destruct (consulted_WorldInv _ _ _ _ _ _ Hinv Hfacts) as ((H1 & H2 & _) & [evs Hevs] & Hsep).
  simpl in Hevs.
  set (n1 := next_obj w1) in *.
  assert (∀ sheet, staticStyleSheet (content_state sep n1) = Some sheet →
                   sheet_id sheet < n1) as Hstatic_lt.
  { intros sheet Hs. eapply H2; [by apply Hsep|done]. }
  eexists _, (content_state sep n1), (trace w1 ++ content_events sep n1).
  split; [exact Hmount|]. simpl.
  split; [done|]. split; [done|]. split; [done|].
  split; [by rewrite Htrace, app_assoc|].
  split; [exists ((([EDispatchEvent registerComponent JsNull;
                     EDispatchEvent getConfig (JsObj [])] ++ evs)
                   ++ content_events sep n1)); by rewrite Hevs, <-!app_assoc|].
  split; [intros sheet Hs; apply elem_of_app; left; by apply Hsep|].
  split; [|done].
  intros sheet (Hid & Hev & _)%content_state_dynamic. rewrite Hid, Hev.
  split; [apply elem_of_app; right; by apply list_elem_of_singleton|]. split.
  - intros e [He|He%list_elem_of_singleton]%elem_of_app Heid; [|done].
    pose proof (H2 e n1 He Heid). lia.
  - intros s Hs%Hstatic_lt. lia.
Qed.

(** For every style object, whatever rules it has or lacks, mounting
    returns. *)
Lemma mount_with_styles_returns cls styles w :
  class_styles cls = Some styles →
  (mount {| this := newInstance cls; world := w |}).1 = Ok tt.
Proof.
  intros Hstyles.
  destruct (mount_run cls styles w Hstyles)
    as (sep & key & w1 & w3 & st & _ & _ & _ & -> & _). done.
Qed.

(** Without a style object, [ngAfterContentInit] throws at its first
    [WeakMap.prototype.set], after [uuid()] has been called; the instance is
    left as [ngOnInit] made it. *)
Lemma mount_no_styles cid base w :
  let cls := {| class_id := cid; class_styles := None; class_base := base |} in
  mount {| this := newInstance cls; world := w |}
  = (Throw (TypeError "Invalid value used as weak map key"),
     {| this := initialized cls;
        world := bump_uuid
                   (with_trace (fun t => t ++ [EDispatchEvent registerComponent JsNull;
                                               EDispatchEvent getConfig (JsObj [])]) w) |}).
Proof.
  intros cls. unfold mount. unfold mbind, M_bind. rewrite ngOnInit_new.
  unfold ngAfterContentInit, separatedStylesInstance_of_cache, getStatics, setStatics,
    uuid, weakMap_set, weakMap_get.
  unfold_M. simpl. done.
Qed.

(** ** Configuration deliveries *)

Lemma deliveries_run (configs : list (list (string * JsVal))) : ∀ s st,
  listeners (this s) = [GetConfigListener; UpdateListener] →
  state (this s) = Some st →
  ∃ s2,
    forEach configs (fun c => receiveEvent getConfig (JsObj c)) s = (Ok tt, s2) ∧
    state (this s2) = Some st ∧
    listeners (this s2) = [GetConfigListener; UpdateListener] ∧
    attached (world s2) = attached (world s) ∧
    managed (world s2) = managed (world s) ∧
    registry (world s2) = registry (world s) ∧
    statics (world s2) = statics (world s) ∧
    match dynamicStyleSheet st with
    | Some d =>
        trace (world s2)
        = trace (world s) ++ map (fun c => ESheetUpdate (sheet_id d) (JsObj c)) configs
    | None => world s2 = world s
    end.
Proof.
  induction configs as [|c configs IH]; intros s st Hls Hst.
  - exists s. simpl. destruct s. repeat split; try done.
    destruct (dynamicStyleSheet st); [by rewrite app_nil_r|done].
  - simpl. unfold mbind, M_bind. rewrite (receive_getConfig s st (JsObj c) Hls Hst).
    destruct (IH {| this := set_config (JsObj c) (this s);
                    world := config_world st (JsObj c) (world s) |} st)
      as (s2 & Hrun & Hst2 & Hls2 & Hatt & Hman & Hreg & Hsts & Htrace); [done..|].
    exists s2. split; [done|]. split; [done|]. split; [done|].
    unfold config_world in *. simpl in *.
    destruct (dynamicStyleSheet st) as [d|]; simpl in *.
    + repeat split; try done. by rewrite Htrace, <-app_assoc.
    + by repeat split.
Qed.

(** C6. After an instance has been mounted, every sequence of configuration
    objects delivered to it (for example [{color: "red"}], then
    [{color: "blue"}]) calls [update] on its dynamic sheet, once per delivery
    and with the delivered object, exactly when it has a dynamic sheet; the
    static sheet is another sheet and nothing is called on it, the sheets
    manager and the attached sheets stay as they are; and with no dynamic
    sheet the world does not change at all. (The delivered object is also
    stored in [this.config], in both cases.) *)
Theorem config_deliveries_update_dynamic_sheet
    cid styles base w (configs : list (list (string * JsVal))) :
  WorldInv w →
  let cls := {| class_id := cid; class_styles := Some styles; class_base := base |} in
  ∃ s1 st s2,
    mount {| this := newInstance cls; world := w |} = (Ok tt, s1) ∧
    state (this s1) = Some st ∧
    forEach configs (fun c => receiveEvent getConfig (JsObj c)) s1 = (Ok tt, s2) ∧
    state (this s2) = Some st ∧
    attached (world s2) = attached (world s1) ∧
    managed (world s2) = managed (world s1) ∧
    match dynamicStyleSheet st with
    | Some d =>
        trace (world s2)
        = trace (world s1) ++ map (fun c => ESheetUpdate (sheet_id d) (JsObj c)) configs ∧
        (∀ s, staticStyleSheet st = Some s → sheet_id s ≠ sheet_id d)
    | None => world s2 = world s1
    end.
Proof.
  intros Hinv cls.
  destruct (mount_facts cls styles w eq_refl Hinv)
    as (s1 & st & created & Hmount & Hst & Hls & _ & _ & _ & _ & Hdyn & _).
  destruct (deliveries_run configs s1 st Hls Hst)
    as (s2 & Hrun & Hst2 & _ & Hatt & Hman & _ & _ & Htrace).
  exists s1, st, s2. repeat (split; [done|]).
  destruct (dynamicStyleSheet st) as [d|]; [|done].
  split; [done|]. by apply (Hdyn d).
Qed.



(** C9, where the code fails. When no style object is given to [manageJss],
    mounting an instance throws a [TypeError] in [ngAfterContentInit],
    whatever the world. *)
Theorem mount_without_styles_throws cid base w :
  (mount {| this := newInstance {| class_id := cid; class_styles := None;
                                   class_base := base |};
            world := w |}).1
  = Throw (TypeError "Invalid value used as weak map key").
Proof. pose proof (mount_no_styles cid base w) as H. cbv zeta in H. by rewrite H. Qed.

(** C10. [ngOnDestroy] removes no listener. After an instance has been
    mounted and destroyed, its two listeners are still registered; an event
    that delivers a configuration still stores it in [this.config], and, when
    the instance had a dynamic sheet, still calls [update] on that sheet,
    which by then is neither attached nor known to jss. *)
Theorem destroyed_instance_still_listens cid styles base w detail :
  let cls := {| class_id := cid; class_styles := Some styles; class_base := base |} in
  ∃ s3 st,
    (mount;; ngOnDestroy) {| this := newInstance cls; world := w |} = (Ok tt, s3) ∧
    listeners (this s3) = [GetConfigListener; UpdateListener] ∧
    state (this s3) = Some st ∧
    receiveEvent getConfig detail s3
    = (Ok tt, {| this := set_config detail (this s3);
                 world := config_world st detail (world s3) |}) ∧
    (∀ d, dynamicStyleSheet st = Some d →
          (sheet_id d ∉ attached (world s3)) ∧ (sheet_id d ∉ registry (world s3)) ∧
          trace (config_world st detail (world s3))
          = trace (world s3) ++ [ESheetUpdate (sheet_id d) (designSystem_of detail)]).
Proof.
  intros cls.
  destruct (mount_run cls styles w eq_refl)
    as (sep & key & w1 & w3 & st & _ & _ & _ & Hmount & _).
  match type of Hmount with _ = (_, ?s) => set (s1 := s) in * end.
  destruct (ngOnDestroy_run s1 st eq_refl) as (w' & Hrun & _ & _ & _ & _ & _ & Hgone & _).
  exists {| this := this s1; world := w' |}, st.
  split; [unfold mbind, M_bind; by rewrite Hmount|].
  split; [done|]. split; [done|].
  split; [by apply receive_getConfig|].
  intros d Hd. destruct (Hgone d Hd) as [? ?]. repeat split; try done.
  unfold config_world. by rewrite Hd.
Qed.

(** ** The cache of separated stylesheets *)

Lemma count_events_app p (t1 t2 : list Event) :
  count_events p (t1 ++ t2) = count_events p t1 + count_events p t2.
Proof. unfold count_events. by rewrite filter_app, length_app. Qed.

(** The events of a mount: one classification-and-compilation pass when the
    object was not in the cache, none when it was. *)
Lemma count_separate_events styles n :
  count_events is_extraction (separate_events styles n) = 1 ∧
  count_events is_registration (separate_events styles n) = 0 ∧
  count_events is_separation (separate_events styles n)
  = (if getStaticStyles (style_rules styles) is Some _ then 3 else 2) ∧
  count_events is_staticCompilation (separate_events styles n)
  = (if getStaticStyles (style_rules styles) is Some _ then 1 else 0).
Proof.
  unfold separate_events. by destruct (getStaticStyles (style_rules styles)).
Qed.

Lemma count_content_events sep n :
  count_events is_extraction (content_events sep n) = 0 ∧
  count_events is_registration (content_events sep n) = 0 ∧
  count_events is_separation (content_events sep n) = 0 ∧
  count_events is_staticCompilation (content_events sep n) = 0.
Proof. unfold content_events. by destruct (sep_dynamicStyles sep). Qed.

Lemma count_view_events st ds :
  count_events is_extraction (view_events st ds) = 0 ∧
  count_events is_registration (view_events st ds)
  = (if staticStyleSheet st is Some _ then 1 else 0) ∧
  count_events is_separation (view_events st ds) = 0 ∧
  count_events is_staticCompilation (view_events st ds) = 0.
Proof.
  unfold view_events. by destruct (staticStyleSheet st), (dynamicStyleSheet st).
Qed.

(** The first mount in a class whose cache is empty: [separateStyles] runs,
    and its result is the one entry of the cache of the class. *)
Lemma mount_fresh cls styles w :
  class_styles cls = Some styles →
  statics w !! class_id cls = None →
  let n := next_obj w in
  let sep := separated styles n in
  let st := content_state sep (separate_next styles n) in
  ∃ s3 key,
    mount {| this := newInstance cls; world := w |} = (Ok tt, s3) ∧
    state (this s3) = Some st ∧
    trace (world s3)
    = trace w ++ [EDispatchEvent registerComponent JsNull;
                  EDispatchEvent getConfig (JsObj [])]
              ++ separate_events styles n
              ++ content_events sep (separate_next styles n)
              ++ view_events st (JsObj []) ∧
    separatedStyles (classStatics (class_id cls) (world s3)) = {[ key := sep ]} ∧
    (∀ c, c ≠ class_id cls → statics (world s3) !! c = statics w !! c) ∧
    next_obj (world s3) = content_next sep (separate_next styles n) ∧
    ((∀ k, uuid_of k ≠ "") → cached cls styles sep (world s3)).
Proof.
  intros Hstyles Hfresh n sep st.
  destruct (mount_run cls styles w Hstyles)
    as (sep' & key & w1 & w3 & st' & _ & Hfacts & -> & Hmount & Htrace & Hstatics & Hobj & _).
  destruct Hfacts as (_ & _ & _ & _ & Hother & Hcache & Hcase & Hcached).
  unfold classStatics in Hcache, Hcase. simpl in Hcache, Hcase, Hother.
  rewrite Hfresh in Hcache, Hcase. simpl in Hcache, Hcase.
  destruct Hcase as [(Hhit & _)|(_ & -> & Ht1 & Hn1 & _)];
    [by rewrite lookup_empty in Hhit|].
  simpl in Ht1, Hn1. fold n in Ht1, Hn1. fold sep in Hcache, Htrace, Hobj, Hmount, Hcached.
  rewrite Hn1 in Htrace, Hobj, Hmount. fold st in Htrace, Hmount.
  eexists _, key. split; [exact Hmount|]. simpl.
  split; [done|].
  split; [by rewrite Htrace, Ht1, <-!app_assoc|].
  split; [unfold classStatics; by rewrite Hstatics|].
  split; [intros c Hc; rewrite Hstatics; by apply Hother|].
  split; [done|].
  intros Hu. destruct (Hcached Hu) as (c & sid & cmp & Hc & Hrest).
  exists c, sid, cmp. by rewrite Hstatics.
Qed.






(** Two classes declared one after the other, and one instance of each
    mounted: each mount is the first of its class. *)
Lemma two_fresh_mounts stylesA stylesB baseA baseB w :
  let A := (manageJss (Some stylesA) baseA w).1 in
  let wA := (manageJss (Some stylesA) baseA w).2 in
  let B := (manageJss (Some stylesB) baseB wA).1 in
  let wB := (manageJss (Some stylesB) baseB wA).2 in
  let n := next_obj w in
  let sepA := separated stylesA n in
  let m := content_next sepA (separate_next stylesA n) in
  let sepB := separated stylesB m in
  ∃ sA sB keyA keyB,
    mount {| this := newInstance A; world := wB |} = (Ok tt, sA) ∧
    mount {| this := newInstance B; world := world sA |} = (Ok tt, sB) ∧
    state (this sA) = Some (content_state sepA (separate_next stylesA n)) ∧
    state (this sB) = Some (content_state sepB (separate_next stylesB m)) ∧
    trace (world sB) = trace w ++ first_mount_events stylesA n ++ first_mount_events stylesB m ∧
    separatedStyles (classStatics (class_id A) (world sB)) = {[ keyA := sepA ]} ∧
    separatedStyles (classStatics (class_id B) (world sB)) = {[ keyB := sepB ]}.
Proof.
  intros A wA B wB n sepA m sepB.
  assert (class_id B ≠ class_id A) as Hne by (simpl; lia).
  assert (next_obj wB = n) as HnB by reflexivity.
  assert (trace wB = trace w) as HtB0 by reflexivity.
  assert (statics wB !! class_id A = None) as HfreshA.
  { unfold wB, wA, A. simpl. rewrite lookup_delete_ne by lia. apply lookup_delete_eq. }
  assert (statics wB !! class_id B = None) as HfreshB.
  { unfold wB, B. simpl. apply lookup_delete_eq. }
  destruct (mount_fresh A stylesA wB eq_refl HfreshA)
    as (sA & keyA & HmountA & HstA & HtA & HcacheA & HotherA & HobjA & _).
  cbv zeta in HstA, HtA, HcacheA, HobjA.
  rewrite HnB in HstA, HtA, HcacheA, HobjA. rewrite HtB0 in HtA.
  fold sepA in HstA, HtA, HcacheA, HobjA. fold m in HobjA.
  destruct (mount_fresh B stylesB (world sA) eq_refl)
    as (sB & keyB & HmountB & HstB & HtB & HcacheB & HotherB & HobjB & _).
  { by rewrite (HotherA (class_id B) Hne). }
  cbv zeta in HstB, HtB, HcacheB, HobjB.
  rewrite HobjA in HstB, HtB, HcacheB, HobjB. fold sepB in HstB, HtB, HcacheB, HobjB.
  exists sA, sB, keyA, keyB.
  repeat (split; [done|]). split; [|split; [|done]].
  - rewrite HtB, HtA. unfold first_mount_events. by rewrite <-!app_assoc.
  - unfold classStatics in *. by rewrite (HotherB (class_id A)) by done.
Qed.

(** C3, as the code has it. Two component types wrapped with the same style
    object, holding static and dynamic rules, are two classes with a cache
    each: mounting an instance of the first and then one of the second
    compiles a static sheet and extracts the dynamic rules once per class,
    twice in total, creates two dynamic sheets, one per instance, and adds a
    static sheet to the shared sheets manager twice. *)
Theorem shared_styles_separated_once_per_class styles baseA baseB w :
  is_Some (getStaticStyles (style_rules styles)) →
  is_Some (getDynamicStyles (style_rules styles)) →
  let A := (manageJss (Some styles) baseA w).1 in
  let wA := (manageJss (Some styles) baseA w).2 in
  let B := (manageJss (Some styles) baseB wA).1 in
  let wB := (manageJss (Some styles) baseB wA).2 in
  ∃ sA sB evs dA dB,
    mount {| this := newInstance A; world := wB |} = (Ok tt, sA) ∧
    mount {| this := newInstance B; world := world sA |} = (Ok tt, sB) ∧
    trace (world sB) = trace w ++ evs ∧
    count_events is_staticCompilation evs = 2 ∧
    count_events is_extraction evs = 2 ∧
    count_events is_dynamicCompilation evs = 2 ∧
    count_events is_registration evs = 2 ∧
    state (this sA) ≫= dynamicStyleSheet = Some dA ∧
    state (this sB) ≫= dynamicStyleSheet = Some dB ∧
    sheet_id dA ≠ sheet_id dB.
Proof.
  intros [ss Hs] [ds Hd] A wA B wB.
  destruct (two_fresh_mounts styles styles baseA baseB w)
    as (sA & sB & keyA & keyB & HmountA & HmountB & HstA & HstB & Htrace & _).
  fold A wA B wB in HmountA, HmountB.
  unfold first_mount_events, separate_events, content_events, view_events, content_state,
    content_next, separate_next, separated in *.
  simpl in *. rewrite Hs, Hd in *. simpl in *.
  eexists sA, sB, _, _, _.
  split; [exact HmountA|]. split; [exact HmountB|]. split; [exact Htrace|].
  do 4 (split; [reflexivity|]).
  split; [by rewrite HstA|]. split; [by rewrite HstB|]. simpl. lia.
Qed.

(** C4. Two style objects with the same keys and the same rules, whether or
    not they are one object, wrapped around the same component type, are two
    classes: mounting an instance of each runs [separateStyles] twice (two
    extractions, and two static compilations when there are static rules)
    and leaves one entry in the cache of each class, holding two different
    objects. *)
Theorem equal_styles_cached_per_reference ref1 ref2 keys rules base w :
  let styles1 := {| style_ref := ref1; style_keys := keys; style_rules := rules |} in
  let styles2 := {| style_ref := ref2; style_keys := keys; style_rules := rules |} in
  let A := (manageJss (Some styles1) base w).1 in
  let wA := (manageJss (Some styles1) base w).2 in
  let B := (manageJss (Some styles2) base wA).1 in
  let wB := (manageJss (Some styles2) base wA).2 in
  ∃ sA sB evs keyA keyB sepA sepB,
    mount {| this := newInstance A; world := wB |} = (Ok tt, sA) ∧
    mount {| this := newInstance B; world := world sA |} = (Ok tt, sB) ∧
    separatedStyles (classStatics (class_id A) (world sB)) = {[ keyA := sepA ]} ∧
    separatedStyles (classStatics (class_id B) (world sB)) = {[ keyB := sepB ]} ∧
    class_id A ≠ class_id B ∧
    sep_ref sepA ≠ sep_ref sepB ∧
    trace (world sB) = trace w ++ evs ∧
    count_events is_extraction evs = 2 ∧
    count_events is_staticCompilation evs
    = (if getStaticStyles rules is Some _ then 2 else 0).
Proof.
  intros styles1 styles2 A wA B wB.
  destruct (two_fresh_mounts styles1 styles2 base base w)
    as (sA & sB & keyA & keyB & HmountA & HmountB & _ & _ & Htrace & HcacheA & HcacheB).
  fold A wA B wB in HmountA, HmountB, HcacheA, HcacheB.
  eexists sA, sB, _, keyA, keyB, _, _.
  split; [exact HmountA|]. split; [exact HmountB|].
  split; [exact HcacheA|]. split; [exact HcacheB|].
  split; [simpl; lia|].
  split.
  { simpl. pose proof (separate_next_le styles1 (next_obj w)).
    pose proof (content_next_le (separated styles1 (next_obj w))
                  (separate_next styles1 (next_obj w))).
    unfold separate_next in *. simpl in *. destruct (getStaticStyles rules); lia. }
  split; [exact Htrace|].
  rewrite !count_events_app. unfold first_mount_events.
  rewrite !count_events_app.
  repeat match goal with
         | |- context [count_events _ (separate_events ?a ?b)] =>
             destruct (count_separate_events a b) as (-> & _ & _ & ->)
         | |- context [count_events _ (content_events ?a ?b)] =>
             destruct (count_content_events a b) as (-> & _ & _ & ->)
         | |- context [count_events _ (view_events ?a ?b)] =>
             destruct (count_view_events a b) as (-> & _ & _ & ->)
         end.
  simpl. by destruct (getStaticStyles rules).
Qed.

(** ** Further properties of the hooks and of the listeners *)

Lemma received_no_dynamic detail s st :
  state (this s) = Some st → dynamicStyleSheet st = None →
  received detail s = {| this := set_config detail (this s); world := world s |}.
Proof. unfold received, config_world. by intros -> ->. Qed.

Lemma iter_received_no_dynamic k detail s st :
  state (this s) = Some st → dynamicStyleSheet st = None →
  Nat.iter (S k) (received detail) s
  = {| this := set_config detail (this s); world := world s |}.
Proof.
  intros Hst Hd. induction k as [|k IH].
  - simpl. by apply (received_no_dynamic _ _ st).
  - change (Nat.iter (S (S k)) (received detail) s)
      with (received detail (Nat.iter (S k) (received detail) s)).
    rewrite IH. by rewrite (received_no_dynamic _ _ st).
Qed.

Lemma filter_listens_snoc (name : EventName) (ls : list Listener) l :
  listens l = name →
  length (filter (fun l => listens l = name) (ls ++ [l]))
  = S (length (filter (fun l => listens l = name) ls)).
Proof.
  intros Hl. rewrite filter_app, length_app.
  rewrite (filter_cons_True _ l []) by done. simpl. lia.
Qed.

(** X1. [ngOnInit] returns on every instance, whatever it held before. It
    replaces [this.state] by an object with no handle (the handles it held
    are dropped, not detached), registers a [getConfig] listener and an
    [update] listener after the listeners the instance had, dispatches
    [registerComponent] and then [getConfig] with the detail [{}], which its
    own listener stores in [this.config] (the detail as dispatched: what
    listeners of other elements do to the event is not part of the model);
    and it calls nothing on any stylesheet: the world changes by these two
    dispatches only. *)
Theorem ngOnInit_resets_state_and_subscribes s :
  ∃ i',
    ngOnInit s
    = (Ok tt,
       {| this := i';
          world := with_trace (fun t => t ++ [EDispatchEvent registerComponent JsNull;
                                              EDispatchEvent getConfig (JsObj [])])
                     (world s) |}) ∧
    state i' = Some noHandles ∧
    config i' = JsObj [] ∧
    listeners i' = listeners (this s) ++ [GetConfigListener; UpdateListener] ∧
    inst_class i' = inst_class (this s) ∧
    instanceId i' = instanceId (this s) ∧
    className i' = className (this s).
Proof.
  rewrite ngOnInit_run. cbv zeta. unfold refreshed.
  cbn [this world listeners add_listener set_state].
  rewrite filter_listens_snoc by done.
  rewrite (iter_received_no_dynamic _ _ _ noHandles) by done.
  destruct s as [[cls cfg st iid cn ls] w]. eexists. split.
  - cbn [this world]. f_equal. f_equal.
    destruct w. unfold with_trace. simpl. by rewrite <-app_assoc.
  - simpl. by rewrite <-app_assoc.
Qed.

(** X2. An [update] event that reaches an instance initialised by
    [ngOnInit] makes it dispatch its [getConfig] event again, with the detail
    [{}] of line 132; its own [getConfig] listener then stores that detail,
    as dispatched, and evaluates the dynamic sheet, when there is one,
    against it. Nothing is
    called on the static sheet or on the sheets manager, the handles and the
    listeners stay, and the detail of the [update] event itself is never
    read. *)
Theorem update_event_redispatches_getConfig s st detail :
  listeners (this s) = [GetConfigListener; UpdateListener] →
  state (this s) = Some st →
  ∃ w',
    receiveEvent update detail s
    = (Ok tt, {| this := set_config (JsObj []) (this s); world := w' |}) ∧
    trace w'
    = trace (world s)
      ++ EDispatchEvent getConfig (JsObj [])
         :: match dynamicStyleSheet st with
            | Some d => [ESheetUpdate (sheet_id d) (JsObj [])]
            | None => []
            end ∧
    attached w' = attached (world s) ∧
    managed w' = managed (world s) ∧
    registry w' = registry (world s) ∧
    statics w' = statics (world s) ∧
    (∀ detail', receiveEvent update detail' s = receiveEvent update detail s).
Proof.
  intros Hls Hst. rewrite receiveEvent_run, Hls. cbn [filter]. simpl.
  unfold refreshed. rewrite Hls. simpl. unfold received. simpl. rewrite Hst.
  eexists. split; [reflexivity|].
  split; [|repeat split].
  - unfold config_world. destruct (dynamicStyleSheet st); simpl; by rewrite <-?app_assoc.
  - unfold config_world. by destruct (dynamicStyleSheet st).
  - unfold config_world. by destruct (dynamicStyleSheet st).
  - unfold config_world. by destruct (dynamicStyleSheet st).
  - unfold config_world. by destruct (dynamicStyleSheet st).
  - intros detail'. rewrite receiveEvent_run, Hls. simpl. unfold refreshed.
    rewrite Hls. simpl. unfold received. simpl. by rewrite Hst.
Qed.


(** X4. A configuration whose detail is falsy ([undefined], [null],
    [false], [0], the empty string) is stored in [this.config] as it is, but
    the dynamic sheet is evaluated against [{}]: [designSystem] never gives a
    falsy value. *)
Theorem falsy_configuration_updates_with_empty_object s st d detail :
  listeners (this s) = [GetConfigListener; UpdateListener] →
  state (this s) = Some st →
  dynamicStyleSheet st = Some d →
  truthy detail = false →
  ∃ s',
    receiveEvent getConfig detail s = (Ok tt, s') ∧
    config (this s') = detail ∧
    designSystem s' = (Ok (JsObj []), s') ∧
    trace (world s') = trace (world s) ++ [ESheetUpdate (sheet_id d) (JsObj [])] ∧
    rendered (world s') !! sheet_id d = Some (JsObj []).
Proof.
  intros Hls Hst Hd Hfalsy. rewrite (receive_getConfig s st detail Hls Hst).
  eexists. split; [reflexivity|]. unfold config_world, designSystem, designSystem_of.
  rewrite Hd, Hfalsy. unfold_M. simpl. rewrite Hfalsy.
  repeat split. by rewrite lookup_insert_eq.
Qed.

(** X5. [separateStyles] always returns an object, and creates no key for a
    side that has no rule: neither side it stores is an empty object, the
    static sheet is there exactly when the static side is, and it is then a
    sheet compiled from that side without the [link] option, known to jss.
    At most one sheet is created, none is attached or given to the sheets
    manager, and the receiver and the caches are not touched. *)
Theorem separateStyles_creates_no_empty_key styles s :
  ∃ sep w',
    separateStyles (Some styles) s = (Ok sep, {| this := this s; world := w' |}) ∧
    sep_dynamicStyles sep ≠ Some ∅ ∧
    sep_staticStyles sep ≠ Some ∅ ∧
    (sep_staticStyleSheet sep = None ↔ sep_staticStyles sep = None) ∧
    (∀ sheet, sep_staticStyleSheet sep = Some sheet →
       sep_staticStyles sep = Some (sheet_styles sheet) ∧
       sheet_link sheet = false ∧
       sheet_id sheet ∈ registry w' ∧
       trace w'
       = trace (world s)
         ++ [EGetDynamicStyles (Some (style_ref styles));
             EGetStaticStyles (Some (style_ref styles));
             ECreateStyleSheet (sheet_id sheet) false]) ∧
    (sep_staticStyleSheet sep = None →
       registry w' = registry (world s) ∧
       trace w'
       = trace (world s)
         ++ [EGetDynamicStyles (Some (style_ref styles));
             EGetStaticStyles (Some (style_ref styles))]) ∧
    attached w' = attached (world s) ∧
    managed w' = managed (world s) ∧
    statics w' = statics (world s).
Proof.
  eexists _, _. split; [apply separateStyles_run|].
  unfold separated, separate_world, separate_events, separate_registry. simpl.
  split.
  { intros Hd. apply getDynamicStyles_nonempty in Hd.
    by apply bool_decide_eq_false in Hd. }
  split.
  { intros Hs. apply getStaticStyles_nonempty in Hs.
    by apply bool_decide_eq_false in Hs. }
  destruct (getStaticStyles (style_rules styles)) as [t|]; simpl.
  - split; [split; done|]. split; [|done].
    intros sheet [= <-]. simpl. repeat split. set_solver.
  - split; [done|]. split; [done|]. done.
Qed.

(** X6. The hooks that read [this.state] need it. On an instance whose
    state is not set (no [ngOnInit], no [ngAfterContentInit] so far),
    [ngAfterViewInit] and [ngOnDestroy] throw a [TypeError] and do nothing
    else: no sheet is touched and [deregisterComponent] is not dispatched;
    [getClassNames] throws too. [ngAfterContentInit] does not read the state
    before it sets it: with a style object it returns and sets the state. *)
Theorem hooks_without_state_throw s :
  state (this s) = None →
  ngAfterViewInit s = (Throw (TypeError "Cannot read properties of undefined"), s) ∧
  ngOnDestroy s = (Throw (TypeError "Cannot read properties of undefined"), s) ∧
  getClassNames s = (Throw (TypeError "Cannot read properties of undefined"), s) ∧
  (∀ styles, class_styles (inst_class (this s)) = Some styles →
             (ngAfterContentInit s).1 = Ok tt ∧
             is_Some (state (this (ngAfterContentInit s).2))).
Proof.
  intros Hst. split; [by apply ngAfterViewInit_no_state|].
  split; [by apply ngOnDestroy_no_state|]. split.
  - destruct s as [[cls cfg st iid cn ls] w]. simpl in Hst. subst st.
    unfold getClassNames, getState. unfold_M. done.
  - intros styles Hstyles.
    destruct (consult_general s styles Hstyles) as (sep & key & w1 & Hconsult & _).
    rewrite (ngAfterContentInit_run s styles sep key w1 Hstyles Hconsult). simpl. eauto.
Qed.

(** ** What the hooks do, in one statement *)

Lemma truthy_designSystem_of c : truthy (designSystem_of c) = true.
Proof. unfold designSystem_of. by destruct (truthy c) eqn:H. Qed.

Lemma quiet_refl s : quiet s s.
Proof. exists []. rewrite app_nil_r. repeat split; try done. by intros e ?%elem_of_nil. Qed.

Lemma quiet_trans s1 s2 s3 : quiet s1 s2 → quiet s2 s3 → quiet s1 s3.
Proof.
  intros (evs1 & Ht1 & He1 & Hs1 & Ho1 & Hc1 & Hi1 & Hst1 & Hl1)
         (evs2 & Ht2 & He2 & Hs2 & Ho2 & Hc2 & Hi2 & Hst2 & Hl2).
  exists (evs1 ++ evs2). rewrite Ht2, Ht1, <-app_assoc.
  split; [done|]. split.
  - intros e [He|He]%elem_of_app; [by apply He1|]. rewrite <-Hst1. by apply He2.
  - repeat split; congruence.
Qed.

Lemma received_quiet detail s : quiet s (received detail s).
Proof.
  unfold received, config_world. destruct (state (this s)) as [st|] eqn:Hst.
  - destruct (dynamicStyleSheet st) as [d|] eqn:Hd.
    + exists [ESheetUpdate (sheet_id d) (designSystem_of detail)]. simpl.
      repeat split; try done.
      intros e ->%list_elem_of_singleton. simpl.
      split; [apply truthy_designSystem_of|]. rewrite Hst. eauto.
    + exists []. simpl. rewrite app_nil_r. repeat split; try done.
      by intros e ?%elem_of_nil.
  - exists []. simpl. rewrite app_nil_r. repeat split; try done.
    by intros e ?%elem_of_nil.
Qed.

Lemma dispatch_quiet name detail s :
  quiet s {| this := this s;
             world := with_trace (fun t => t ++ [EDispatchEvent name detail]) (world s) |}.
Proof.
  exists [EDispatchEvent name detail]. simpl. repeat split; try done.
  by intros e ->%list_elem_of_singleton.
Qed.

Lemma iter_quiet k (g : Sys → Sys) s :
  (∀ s', quiet s' (g s')) → quiet s (Nat.iter k g s).
Proof.
  intros Hg. induction k as [|k IH]; simpl; [apply quiet_refl|].
  eapply quiet_trans; [exact IH|apply Hg].
Qed.

Lemma refreshed_quiet s : quiet s (refreshed s).
Proof.
  unfold refreshed.
  eapply quiet_trans; [apply (dispatch_quiet getConfig (JsObj []))|].
  apply iter_quiet. intros s'. apply received_quiet.
Qed.

Lemma receiveEvent_quiet name detail s : quiet s (receiveEvent name detail s).2.
Proof.
  rewrite receiveEvent_run. cbn [snd]. apply iter_quiet. intros s'.
  destruct name; auto using received_quiet, refreshed_quiet, quiet_refl.
Qed.

Lemma view_events_handle st ds e :
  truthy ds = true → e ∈ view_events st ds → handle_event (Some st) e.
Proof.
  unfold view_events. intros Hds.
  destruct (staticStyleSheet st) as [s|] eqn:Hs, (dynamicStyleSheet st) as [d|] eqn:Hd; simpl.
  all: rewrite ?elem_of_cons, elem_of_nil; intros He.
  all: repeat match goal with H : _ ∨ _ |- _ => destruct H as [->|H] end; try done.
  all: simpl; eauto 10.
Qed.

Lemma destroy_events_handle st e : e ∈ destroy_events st → handle_event (Some st) e.
Proof.
  unfold destroy_events.
  destruct (staticStyleSheet st) as [s|] eqn:Hs, (dynamicStyleSheet st) as [d|] eqn:Hd; simpl.
  all: rewrite ?elem_of_cons, elem_of_nil; intros He.
  all: repeat match goal with H : _ ∨ _ |- _ => destruct H as [->|H] end; try done.
  all: simpl; eauto 10.
Qed.

Lemma ngAfterViewInit_quiet s : quiet s (ngAfterViewInit s).2.
Proof.
  destruct (state (this s)) as [st|] eqn:Hst.
  - destruct (ngAfterViewInit_run s st Hst)
      as (w' & -> & Htrace & Hstatics & Hobj & _ & Hclass & _).
    exists (view_events st (designSystem_of (config (this s)))). simpl.
    repeat split; try done. intros e He. rewrite Hst.
    eapply view_events_handle; [apply truthy_designSystem_of|done].
  - rewrite (ngAfterViewInit_no_state s Hst). apply quiet_refl.
Qed.

Lemma ngOnDestroy_quiet s : quiet s (ngOnDestroy s).2.
Proof.
  destruct (state (this s)) as [st|] eqn:Hst.
  - destruct (ngOnDestroy_run s st Hst)
      as (w' & -> & Htrace & Hstatics & Hobj & _ & Hclass & _).
    exists (destroy_events st). simpl.
    repeat split; try done. intros e He. rewrite Hst. by apply destroy_events_handle.
  - rewrite (ngOnDestroy_no_state s Hst). apply quiet_refl.
Qed.

Lemma handle_event_noHandles st e : handle_event (Some noHandles) e → handle_event st e.
Proof.
  destruct e; simpl; try done.
  all: try (intros (st' & sh & [= <-] & Hs & _); done).
  intros (_ & st' & sh & [= <-] & Hs & _). done.
Qed.

Lemma quiet_effect s s' : quiet s s' → hook_effect s s'.
Proof.
  intros (evs & Ht & He & Hs & Ho & Hc & Hi & Hst & Hl).
  split; [done|]. split; [done|]. left. exists evs. eauto 10.
Qed.

Lemma ngOnInit_effect s : hook_effect s (ngOnInit s).2.
Proof.
  rewrite ngOnInit_run. cbv zeta. cbn [snd].
  match goal with |- context [refreshed ?s2] =>
    destruct (refreshed_quiet s2) as (evs & Ht & He & Hs & Ho & Hc & Hi & Hst & Hl);
    set (r := refreshed s2) in *
  end.
  cbn [this world add_listener set_state inst_class state] in Ht, He, Hs, Ho, Hc, Hi, Hst.
  unfold with_trace in Ht, Hs, Ho, Hc. cbn [trace statics next_obj next_class] in Ht, Hs, Ho, Hc.
  split; [done|]. split; [done|]. left.
  exists (EDispatchEvent registerComponent JsNull :: evs). cbn [this world].
  split; [by rewrite Ht, <-app_assoc|].
  split.
  { intros e [->|Hin]%elem_of_cons; [done|]. by apply handle_event_noHandles, He. }
  split; [done|]. split; [done|]. left. done.
Qed.

Lemma ngAfterContentInit_effect s : hook_effect s (ngAfterContentInit s).2.
Proof.
  destruct (class_styles (inst_class (this s))) as [styles|] eqn:Hstyles.
  - destruct (consult_general s styles Hstyles) as (sep & key & w1 & Hconsult & Hfacts).
    rewrite (ngAfterContentInit_run s styles sep key w1 Hstyles Hconsult). cbn [snd].
    pose proof Hfacts as (Hclass & _).
    split; [done|]. split; [done|]. right.
    exists styles, sep, key, w1. split; [done|]. split; [exact Hfacts|]. by repeat split.
  - rewrite (ngAfterContentInit_no_styles s Hstyles). cbn [snd].
    split; [done|]. split; [done|]. left. exists []. simpl. rewrite app_nil_r.
    repeat split; try done; [by intros e ?%elem_of_nil|by right].
Qed.

(** Every hook and every delivery of an event has the effect described by
    [hook_effect]. *)
Lemma callHook_effect h s : hook_effect s (callHook h s).2.
Proof.
  destruct h; simpl.
  - apply ngOnInit_effect.
  - apply ngAfterContentInit_effect.
  - apply quiet_effect, ngAfterViewInit_quiet.
  - apply quiet_effect, ngOnDestroy_quiet.
  - apply quiet_effect, receiveEvent_quiet.
Qed.

(** ** What the hooks keep true of the handles *)

Lemma allowed_mono t t' e : (∀ x, x ∈ t → x ∈ t') → allowed t e → allowed t' e.
Proof. intros Hsub. destruct e; simpl; try done; try apply Hsub. intros [? ?]. auto. Qed.

Lemma TypedHandles_mono w w' i :
  (∀ x, x ∈ trace w → x ∈ trace w') → TypedHandles w i → TypedHandles w' i.
Proof.
  intros Hsub Hi st Hst. destruct (Hi st Hst) as [Hs Hd].
  split; intros sheet Hsheet; apply Hsub; auto.
Qed.

Lemma TypedHandles_InstInv w i : TypedHandles w i → InstInv w i.
Proof.
  intros Hi st sheet Hst [Hs|Hd]; destruct (Hi st Hst) as [H1 H2]; eauto.
Qed.

Lemma TypedHandles_lt w i st sheet :
  WorldInv w → TypedHandles w i → state i = Some st →
  staticStyleSheet st = Some sheet ∨ dynamicStyleSheet st = Some sheet →
  sheet_id sheet < next_obj w.
Proof.
  intros (_ & H2 & _) Hi Hst Hsheet.
  destruct (TypedHandles_InstInv w i Hi st sheet Hst Hsheet) as [link Hin].
  by apply (H2 _ _ Hin).
Qed.

(** The events of a consultation of the cache: none, or those of
    [separateStyles], which compiles at most a static sheet, a new one. *)
Lemma consulted_events cls styles w sep key w1 :
  consulted cls styles w sep key w1 →
  ∃ evs,
    trace w1 = trace w ++ evs ∧ (next_obj w ≤ next_obj w1)%nat ∧
    ∀ e, e ∈ evs →
         event_sheet e = None ∨
         ∃ id, e = ECreateStyleSheet id false ∧ (next_obj w ≤ id)%nat ∧ id < next_obj w1.
Proof.
  intros (_ & _ & _ & _ & _ & _ & Hcase & _).
  destruct Hcase as [(_ & -> & -> & _)|(_ & _ & -> & -> & _)]; simpl.
  - exists []. rewrite app_nil_r. split; [done|]. split; [done|]. by intros e ?%elem_of_nil.
  - eexists. split; [done|]. split; [apply separate_next_le|].
    intros e. unfold separate_events, separate_next.
    destruct (getStaticStyles (style_rules styles)); simpl;
      rewrite ?elem_of_cons, elem_of_nil; intros He; destruct_or!; subst; simpl; auto.
    right. eexists. split; [done|]. lia.
Qed.

(** The events a hook adds are allowed, and the sheets it compiles are new
    ones, each compiled once. *)
Lemma effect_events s s' :
  WorldInv (world s) → TypedHandles (world s) (this s) → hook_effect s s' →
  ∃ evs,
    trace (world s') = trace (world s) ++ evs ∧
    ∀ e, e ∈ evs →
         allowed (trace (world s)) e ∧
         ∀ id link, e = ECreateStyleSheet id link →
                    (next_obj (world s) ≤ id)%nat ∧
                    ∀ link', ECreateStyleSheet id link' ∈ evs → link' = link.
Proof.
  intros Hw Hi (_ & _ & [(evs & Ht & He & _)|Hcontent]).
  - exists evs. split; [done|]. intros e Hin. specialize (He e Hin). split.
    + destruct e; simpl in *; try done.
      all: try (destruct He as (st & sh & Hst & Hs & ->); by apply (Hi st Hst)).
      destruct He as (Hdata & st & sh & Hst & Hs & ->). split; [|done]. by apply (Hi st Hst).
    + intros id link ->. done.
  - destruct Hcontent as (styles & sep & key & w1 & _ & Hcons & Ht & _ & _ & _ & _).
    destruct (consulted_events _ _ _ _ _ _ Hcons) as (evs1 & Ht1 & Hle & Hevs1).
    exists (evs1 ++ content_events sep (next_obj w1)).
    split; [by rewrite Ht, Ht1, <-app_assoc|].
    intros e [He|He]%elem_of_app.
    + destruct (Hevs1 e He) as [Hnone|(id & -> & Hge & Hlt)].
      * split; [by destruct e|]. intros id link ->. done.
      * split; [done|]. intros id' link [= <- <-]. split; [done|].
        intros link' [Hin|Hin]%elem_of_app.
        -- destruct (Hevs1 _ Hin) as [?|(id' & Heq & _)]; [done|]. by simplify_eq.
        -- apply content_events_sheet with (id := id) in Hin as (-> & _); [lia|done].
    + pose proof He as He'.
      apply content_events_sheet with (id := next_obj w1) in He' as (_ & -> & _).
      2:{ unfold content_events in He. destruct (sep_dynamicStyles sep);
          [by apply list_elem_of_singleton in He as ->|by apply elem_of_nil in He]. }
      split; [done|]. intros id link [= <- <-]. split; [done|].
      intros link' [Hin|Hin]%elem_of_app.
      * destruct (Hevs1 _ Hin) as [?|(id' & Heq & _ & Hlt)]; [done|]. simplify_eq. lia.
      * apply content_events_sheet with (id := next_obj w1) in Hin as (_ & [= <-] & _); done.
Qed.

Lemma effect_OneKind s s' :
  WorldInv (world s) → TypedHandles (world s) (this s) → OneKind (trace (world s)) →
  hook_effect s s' → OneKind (trace (world s')).
Proof.
  intros Hw Hi Hone Heff. pose proof Hw as (_ & H2 & _).
  destruct (effect_events s s' Hw Hi Heff) as (evs & -> & Hevs).
  intros id link link' [H|H]%elem_of_app [H'|H']%elem_of_app.
  - by eapply Hone.
  - destruct (Hevs _ H') as [_ Hnew]. destruct (Hnew id link' eq_refl) as [Hge _].
    pose proof (H2 _ id H eq_refl). lia.
  - destruct (Hevs _ H) as [_ Hnew]. destruct (Hnew id link eq_refl) as [Hge _].
    pose proof (H2 _ id H' eq_refl). lia.
  - destruct (Hevs _ H) as [_ Hnew]. destruct (Hnew id link eq_refl) as [_ Hsame].
    symmetry. by apply Hsame.
Qed.

Lemma effect_Disciplined s s' :
  WorldInv (world s) → TypedHandles (world s) (this s) → Disciplined (trace (world s)) →
  hook_effect s s' → Disciplined (trace (world s')).
Proof.
  intros Hw Hi Hdisc Heff.
  destruct (effect_events s s' Hw Hi Heff) as (evs & -> & Hevs).
  intros e [He|He]%elem_of_app.
  - eapply allowed_mono; [|by apply Hdisc]. intros x Hx. apply elem_of_app. by left.
  - eapply allowed_mono; [|by apply Hevs]. intros x Hx. apply elem_of_app. by left.
Qed.

Lemma effect_trace_mono s s' :
  hook_effect s s' → ∀ x, x ∈ trace (world s) → x ∈ trace (world s').
Proof.
  intros (_ & _ & [(evs & Ht & _)|(styles & sep & key & w1 & _ & Hcons & Ht & _)]) x Hx;
    rewrite Ht.
  - apply elem_of_app. by left.
  - destruct (consulted_events _ _ _ _ _ _ Hcons) as (evs1 & -> & _).
    rewrite !elem_of_app. auto.
Qed.

Lemma effect_TypedHandles s s' :
  WorldInv (world s) → TypedHandles (world s) (this s) →
  hook_effect s s' → TypedHandles (world s') (this s').
Proof.
  intros Hw Hi Heff. pose proof (effect_trace_mono s s' Heff) as Hmono.
  destruct Heff as (_ & _ & [(evs & Ht & _ & _ & _ & Hstate)|Hcontent]).
  - destruct Hstate as [Hnone|[Hsame _]]; intros st Hst.
    + rewrite Hnone in Hst. simplify_eq. done.
    + rewrite Hsame in Hst. destruct (Hi st Hst) as [Hs Hd].
      split; intros sheet Hsheet; apply Hmono; auto.
  - destruct Hcontent as (styles & sep & key & w1 & _ & Hcons & Ht & _ & _ & Hstate & _).
    destruct (consulted_WorldInv _ _ _ _ _ _ Hw Hcons) as (_ & _ & Hsep).
    intros st Hst. rewrite Hstate in Hst. simplify_eq. rewrite Ht. split.
    + intros sheet Hs. apply elem_of_app. left. by apply Hsep.
    + intros sheet (-> & -> & _)%content_state_dynamic.
      apply elem_of_app. right. by apply list_elem_of_singleton.
Qed.

Lemma effect_Listening s s' :
  Listening (this s) → hook_effect s s' → Listening (this s').
Proof.
  intros Hl (_ & _ & [(evs & _ & _ & _ & _ & Hstate)|Hcontent]) Hne.
  - destruct Hstate as [->|[-> Hls]]; [eauto|]. apply Hl. by rewrite <-Hls.
  - destruct Hcontent as (styles & sep & key & w1 & _ & _ & _ & _ & _ & -> & _). eauto.
Qed.

(** The dynamic handle after a hook is the one held before, or a new
    sheet. *)
Lemma effect_dynamic s s' st' d :
  hook_effect s s' → state (this s') = Some st' → dynamicStyleSheet st' = Some d →
  (∃ st, state (this s) = Some st ∧ dynamicStyleSheet st = Some d) ∨
  (next_obj (world s) ≤ sheet_id d)%nat.
Proof.
  intros (_ & _ & [(evs & _ & _ & _ & _ & Hstate)|Hcontent]) Hst Hd.
  - destruct Hstate as [Hnone|[Hsame _]].
    + rewrite Hnone in Hst. by simplify_eq.
    + rewrite Hsame in Hst. eauto.
  - destruct Hcontent as (styles & sep & key & w1 & _ & Hcons & _ & _ & _ & Hstate & _).
    destruct (consulted_events _ _ _ _ _ _ Hcons) as (evs1 & _ & Hle & _).
    rewrite Hstate in Hst. simplify_eq.
    apply content_state_dynamic in Hd as (-> & _). by right.
Qed.

Lemma OwnDynamic_insert (instances : list Instance) k i i' (n : nat) :
  instances !! k = Some i → OwnDynamic instances →
  (∀ j ij stj dj, instances !! j = Some ij → state ij = Some stj →
                  dynamicStyleSheet stj = Some dj → sheet_id dj < n) →
  (∀ st' d, state i' = Some st' → dynamicStyleSheet st' = Some d →
            (∃ st, state i = Some st ∧ dynamicStyleSheet st = Some d) ∨
            (n ≤ sheet_id d)%nat) →
  OwnDynamic (<[k := i']> instances).
Proof.
  intros Hk Hown Hlt Hnew k1 k2 i1 i2 st1 st2 d1 d2 Hne H1 H2 Hst1 Hst2 Hd1 Hd2.
  apply list_lookup_insert_Some in H1 as [(<- & <- & _)|(Hk1 & H1)];
    apply list_lookup_insert_Some in H2 as [(<- & <- & _)|(Hk2 & H2)]; try done.
  - destruct (Hnew st1 d1 Hst1 Hd1) as [(st & Hst & Hd)|Hge].
    + by apply (Hown k k2 i i2 st st2 d1 d2).
    + pose proof (Hlt k2 i2 st2 d2 H2 Hst2 Hd2). lia.
  - destruct (Hnew st2 d2 Hst2 Hd2) as [(st & Hst & Hd)|Hge].
    + by apply (Hown k1 k i1 i st1 st d1 d2).
    + pose proof (Hlt k1 i1 st1 d1 H1 Hst1 Hd1). lia.
  - by apply (Hown k1 k2 i1 i2 st1 st2 d1 d2).
Qed.

Lemma HandlesInv_initial : HandlesInv initialSystem.
Proof.
  split; [|split; [|split; [|split]]]; simpl.
  - intros id link link' H. by apply elem_of_nil in H.
  - intros e H. by apply elem_of_nil in H.
  - apply Forall_nil_2.
  - apply Forall_nil_2.
  - intros k1 k2 i1 i2 st1 st2 d1 d2 _ H. by rewrite lookup_nil in H.
Qed.

Lemma step_handles sys sys' :
  SystemInv sys → HandlesInv sys → step sys sys' → HandlesInv sys'.
Proof.
  intros [Hw Hinsts] (Hone & Hdisc & Htyped & Hlisten & Hown) Hstep.
  destruct Hstep as [sys styles base|sys cls|sys k i h Hk s'].
  - done.
  - split; [done|]. split; [done|]. simpl. split; [|split].
    + apply Forall_app. split; [done|]. apply Forall_singleton. intros st Hst. done.
    + apply Forall_app. split; [done|]. apply Forall_singleton. intros Hne. done.
    + intros k1 k2 i1 i2 st1 st2 d1 d2 Hne H1 H2 Hst1 Hst2 Hd1 Hd2.
      apply lookup_app_Some in H1 as [H1|[_ H1]];
        [|apply list_lookup_singleton_Some in H1 as [_ <-]; done].
      apply lookup_app_Some in H2 as [H2|[_ H2]];
        [|apply list_lookup_singleton_Some in H2 as [_ <-]; done].
      by apply (Hown k1 k2 i1 i2 st1 st2 d1 d2).
  - pose proof (callHook_effect h {| this := i; world := sys_world sys |}) as Heff.
    fold s' in Heff.
    pose proof (Forall_lookup_1 _ _ _ _ Htyped Hk) as Hi.
    pose proof (Forall_lookup_1 _ _ _ _ Hlisten Hk) as Hl.
    pose proof (effect_trace_mono _ _ Heff) as Hmono. simpl in Hmono.
    set (s0 := {| this := i; world := sys_world sys |}) in *.
    split; [by apply (effect_OneKind s0 s' Hw Hi Hone Heff)|].
    split; [by apply (effect_Disciplined s0 s' Hw Hi Hdisc Heff)|]. simpl.
    split; [|split].
    + apply Forall_insert; [|by apply (effect_TypedHandles s0 s' Hw Hi Heff)].
      eapply Forall_impl; [exact Htyped|]. intros j. by apply TypedHandles_mono.
    + apply Forall_insert; [done|]. by apply (effect_Listening s0 s' Hl Heff).
    + apply (OwnDynamic_insert _ k i _ (next_obj (sys_world sys))); [done|done| |].
      * intros j ij stj dj Hj Hstj Hdj.
        apply (TypedHandles_lt _ ij stj dj Hw); [|done|by right].
        by apply (Forall_lookup_1 _ _ _ _ Htyped Hj).
      * intros st' d Hst' Hd. by apply (effect_dynamic s0 s' st' d Heff).
Qed.

(** Every system the program reaches keeps the handles apart. *)
Lemma reachable_handles sys : reachable sys → SystemInv sys ∧ HandlesInv sys.
Proof.
  unfold reachable. intros Hreach.
  apply (rtc_ind_r (R:=step) (fun sys => SystemInv sys ∧ HandlesInv sys) initialSystem);
    [| |exact Hreach].
  - split; [|apply HandlesInv_initial]. split; [apply WorldInv_initial|apply Forall_nil_2].
  - intros sys1 sys2 _ Hstep [IH1 IH2]. split; [by eapply step_inv|by eapply step_handles].
Qed.

Lemma createInstance_step cls sys : step sys (createInstance cls sys).
Proof. apply step_new. Qed.

Lemma runHook_step h k sys i :
  sys_instances sys !! k = Some i → step sys (runHook h k sys).
Proof. intros Hk. unfold runHook. rewrite Hk. by apply step_hook. Qed.

Lemma reachable_createInstance cls sys : reachable sys → reachable (createInstance cls sys).
Proof. intros H. eapply rtc_r; [exact H|apply createInstance_step]. Qed.

Lemma reachable_runHook h k sys : reachable sys → reachable (runHook h k sys).
Proof.
  intros H. destruct (sys_instances sys !! k) as [i|] eqn:Hk.
  - eapply rtc_r; [exact H|by eapply runHook_step].
  - unfold runHook. by rewrite Hk.
Qed.

(** ** Properties of every system the program reaches *)

(** X7. In every system the program reaches, whatever the order of the
    hooks and of the events, a sheet compiled as a static one (by
    [separateStyles], without the [link] option) is only ever given to the
    sheets manager: it is never attached, updated, detached or removed by a
    direct call, and it is not compiled a second time as a dynamic sheet. And
    a sheet compiled as a dynamic one is never given to the sheets
    manager. *)
Theorem static_sheets_go_through_the_manager sys id :
  reachable sys →
  let t := trace (sys_world sys) in
  (ECreateStyleSheet id false ∈ t →
   (ECreateStyleSheet id true ∉ t) ∧ (ESheetAttach id ∉ t) ∧ (ESheetDetach id ∉ t) ∧
   (ERemoveStyleSheet id ∉ t) ∧ (∀ data, ESheetUpdate id data ∉ t)) ∧
  (ECreateStyleSheet id true ∈ t →
   (EManagerAdd id ∉ t) ∧ (EManagerManage id ∉ t) ∧ (EManagerUnmanage id ∉ t)).
Proof.
  intros (_ & Hone & Hdisc & _)%reachable_handles t. split.
  - intros Hstatic.
    assert (ECreateStyleSheet id true ∉ t) as Hno.
    { intros Hdyn. by pose proof (Hone id false true Hstatic Hdyn). }
    split; [done|].
    split; [intros Hin; by apply Hdisc in Hin|].
    split; [intros Hin; by apply Hdisc in Hin|].
    split; [intros Hin; by apply Hdisc in Hin|].
    intros data Hin. by apply Hdisc in Hin as [? _].
  - intros Hdyn.
    assert (ECreateStyleSheet id false ∉ t) as Hno.
    { intros Hstatic. by pose proof (Hone id false true Hstatic Hdyn). }
    split; [intros Hin; by apply Hdisc in Hin|].
    split; [intros Hin; by apply Hdisc in Hin|].
    intros Hin. by apply Hdisc in Hin.
Qed.

(** X8. In every system the program reaches, [update] has only been called
    with a truthy value: every evaluation of a dynamic sheet, in
    [ngAfterViewInit] or in the [getConfig] listener, goes through
    [designSystem], which replaces an unset or falsy configuration by
    [{}]. *)
Theorem sheets_are_updated_with_truthy_values sys id data :
  reachable sys →
  ESheetUpdate id data ∈ trace (sys_world sys) →
  truthy data = true.
Proof.
  intros (_ & _ & Hdisc & _)%reachable_handles Hin. by apply Hdisc in Hin as [_ ?].
Qed.

(** X9. In every system the program reaches, an instance that has a
    listener has a state: the listeners are registered by [ngOnInit] after
    it has set [this.state], and nothing unsets it. So the read of
    [this.state.dynamicStyleSheet] in the [getConfig] listener never fails,
    whenever the event arrives. *)
Theorem listeners_always_find_a_state sys k i detail :
  reachable sys →
  sys_instances sys !! k = Some i →
  listeners i ≠ [] →
  is_Some (state i) ∧
  (onGetConfig detail {| this := i; world := sys_world sys |}).1 = Ok tt.
Proof.
  intros (_ & _ & _ & _ & Hlisten & _)%reachable_handles Hk Hne.
  pose proof (Forall_lookup_1 _ _ _ _ Hlisten Hk Hne) as [st Hst].
  split; [eauto|].
  destruct i as [cls cfg st0 iid cn ls]. simpl in Hst. subst st0.
  unfold onGetConfig, getState, designSystem, sheet_update. unfold_M. simpl.
  by destruct (dynamicStyleSheet st).
Qed.

(** X10. In every system the program reaches, the dynamic sheet of an
    instance is its own: no other instance holds it as its dynamic sheet, and
    it is nobody's static sheet, not even its own (lines 168-170: a new
    dynamic sheet is compiled for each instance). *)
Theorem instances_share_no_dynamic_sheet sys k1 k2 i1 i2 st1 st2 d :
  reachable sys →
  k1 ≠ k2 →
  sys_instances sys !! k1 = Some i1 →
  sys_instances sys !! k2 = Some i2 →
  state i1 = Some st1 →
  state i2 = Some st2 →
  dynamicStyleSheet st1 = Some d →
  (∀ d2, dynamicStyleSheet st2 = Some d2 → sheet_id d ≠ sheet_id d2) ∧
  (∀ s2, staticStyleSheet st2 = Some s2 → sheet_id d ≠ sheet_id s2) ∧
  (∀ s1, staticStyleSheet st1 = Some s1 → sheet_id d ≠ sheet_id s1).
Proof.
  intros (_ & Hone & _ & Htyped & _ & Hown)%reachable_handles Hne H1 H2 Hst1 Hst2 Hd.
  pose proof (Forall_lookup_1 _ _ _ _ Htyped H1 st1 Hst1) as [Hs1 Hd1].
  pose proof (Forall_lookup_1 _ _ _ _ Htyped H2 st2 Hst2) as [Hs2 Hd2].
  split; [|split].
  - intros d2 Hd'. by apply (Hown k1 k2 i1 i2 st1 st2 d d2).
  - intros s2 Hs Heq. specialize (Hd1 d Hd). specialize (Hs2 s2 Hs).
    rewrite <-Heq in Hs2. by pose proof (Hone _ _ _ Hs2 Hd1).
  - intros s1 Hs Heq. specialize (Hd1 d Hd). specialize (Hs1 s1 Hs).
    rewrite <-Heq in Hs1. by pose proof (Hone _ _ _ Hs1 Hd1).
Qed.

(** X11. The cache of separated stylesheets only grows: whatever hook is
    called on an instance and whatever event is delivered to it, an entry of
    the cache of any class is still there afterwards, with the same object.
    [ngOnDestroy] in particular evicts nothing. *)
Theorem hooks_keep_cache_entries h s c key sep :
  separatedStyles (classStatics c (world s)) !! key = Some sep →
  separatedStyles (classStatics c (world (callHook h s).2)) !! key = Some sep.
Proof.
  intros Hentry.
  destruct (callHook_effect h s) as (_ & _ & [(evs & _ & _ & Hstatics & _)|Hcontent]).
  - unfold classStatics in *. by rewrite Hstatics.
  - destruct Hcontent as (styles & sep' & key' & w1 & _ & Hcons & _ & Hstatics & _).
    destruct Hcons as (_ & _ & _ & _ & Hother & Hcache & Hcase & _).
    unfold classStatics in *. rewrite Hstatics.
    destruct (decide (c = class_id (inst_class (this s)))) as [->|Hc].
    + rewrite Hcache. destruct (decide (key' = key)) as [->|Hkey].
      * rewrite lookup_insert_eq.
        destruct Hcase as [(Hhit & _)|(Hmiss & _)]; congruence.
      * by rewrite lookup_insert_ne.
    + by rewrite Hother.
Qed.

(** ** The first mount of a class, in detail *)

(** The consultation of the cache by the first instance of a class: two
    identifiers are drawn, the first for the style object and the second for
    [Component]; [separateStyles] runs, and its result is stored under the
    second identifier followed by the first. *)
Lemma consult_fresh s styles :
  class_styles (inst_class (this s)) = Some styles →
  statics (world s) !! class_id (inst_class (this s)) = None →
  let w := world s in
  let key := uuid_of (S (next_uuid w)) +:+ uuid_of (next_uuid w) in
  let sep := separated styles (next_obj w) in
  ∃ w',
    separatedStylesInstance_of_cache s
    = (Ok sep, {| this := set_instanceId (Some key) (this s); world := w' |}) ∧
    statics w'
    = <[class_id (inst_class (this s)) :=
          {| componentMap := {[ Component := uuid_of (S (next_uuid w)) ]};
             styleMap := {[ style_ref styles := uuid_of (next_uuid w) ]};
             separatedStyles := {[ key := sep ]} |}]> (statics w) ∧
    next_uuid w' = S (S (next_uuid w)) ∧
    next_obj w' = separate_next styles (next_obj w) ∧
    trace w' = trace w ++ separate_events styles (next_obj w) ∧
    registry w' = separate_registry styles (next_obj w) (registry w) ∧
    attached w' = attached w ∧ managed w' = managed w.
Proof.
  destruct s as [[[cid cs cb] cfg st iid cn ls] [nc nu no sts att reg man ren tr]].
  simpl. intros -> Hfresh.
  unfold separatedStylesInstance_of_cache, getStatics, setStatics, uuid, weakMap_set,
    weakMap_get.
  unfold_M. simpl. rewrite Hfresh. norm. rewrite lookup_empty. norm.
  rewrite lookup_empty. norm. rewrite lookup_empty. norm.
  rewrite separateStyles_run. norm.
  eexists. split; [reflexivity|]. simpl.
  rewrite !insert_insert_eq, !insert_empty. done.
Qed.

(** The consultation of the cache by a later instance: the identifiers are
    found, no new one is drawn, and the key is the same. *)
Lemma consult_hit_key s styles c sid cmp sep :
  class_styles (inst_class (this s)) = Some styles →
  statics (world s) !! class_id (inst_class (this s)) = Some c →
  styleMap c !! style_ref styles = Some sid → sid ≠ "" →
  componentMap c !! Component = Some cmp → cmp ≠ "" →
  separatedStyles c !! (cmp +:+ sid) = Some sep →
  separatedStylesInstance_of_cache s
  = (Ok sep, {| this := set_instanceId (Some (cmp +:+ sid)) (this s); world := world s |}).
Proof.
  destruct s as [[[cid cs cb] cfg st iid cn ls] [nc nu no sts att reg man ren tr]].
  simpl. intros -> Hc Hsid Hsne Hcmp Hcne Hsep.
  apply String.eqb_neq in Hsne, Hcne.
  unfold separatedStylesInstance_of_cache, getStatics, setStatics, uuid, weakMap_set,
    weakMap_get.
  unfold_M. simpl. rewrite Hc. simpl. rewrite Hsid. simpl. rewrite Hsne. simpl.
  rewrite Hc. simpl. rewrite Hcmp. simpl. rewrite Hcne. simpl.
  rewrite Hc. simpl. rewrite Hcmp, Hsid. simpl. rewrite Hsep. done.
Qed.

(** A mount, given what its consultation of the cache gives. *)
Lemma mount_of_consult cls styles w sep key w1 :
  class_styles cls = Some styles →
  separatedStylesInstance_of_cache
    {| this := initialized cls;
       world := with_trace (fun t => t ++ [EDispatchEvent registerComponent JsNull;
                                           EDispatchEvent getConfig (JsObj [])]) w |}
  = (Ok sep, {| this := set_instanceId (Some key) (initialized cls); world := w1 |}) →
  let st := content_state sep (next_obj w1) in
  ∃ w3,
    mount {| this := newInstance cls; world := w |}
    = (Ok tt,
       {| this :=
            set_className
              (mergeClassNames st !! default "undefined" (head (style_keys styles)))
              (set_state (Some st) (set_instanceId (Some key) (initialized cls)));
          world := w3 |}) ∧
    trace w3 = trace w1 ++ content_events sep (next_obj w1) ++ view_events st (JsObj []) ∧
    statics w3 = statics w1 ∧
    next_uuid w3 = next_uuid w1 ∧
    next_obj w3 = content_next sep (next_obj w1) ∧
    registry w3 = content_registry sep (next_obj w1) (registry w1) ∧
    (st = noHandles → attached w3 = attached w1 ∧ managed w3 = managed w1).
Proof.
  intros Hstyles Hconsult st.
  match type of Hconsult with _ ?s0 = _ =>
    pose proof (ngAfterContentInit_run s0 styles sep key w1 Hstyles Hconsult) as Hcontent
  end.
  simpl in Hcontent. fold st in Hcontent.
  match type of Hcontent with _ = (_, ?s2) =>
    destruct (ngAfterViewInit_run s2 st eq_refl)
      as (w3 & Hview & Htrace & Hstatics & Hobj & Huuid & _ & Hreg)
  end.
  exists w3. split.
  { unfold mount. unfold mbind, M_bind. rewrite ngOnInit_new, Hcontent. exact Hview. }
  simpl in *. split; [by rewrite Htrace, <-app_assoc|].
  repeat (split; [done|]).
  intros Hnone. rewrite Hnone in Hview.
  unfold ngAfterViewInit, getState in Hview. unfold_M. simpl in Hview.
  injection Hview as <-. done.
Qed.

Lemma manageJss_fresh styles base w :
  statics (manageJss styles base w).2 !! class_id (manageJss styles base w).1 = None.
Proof. simpl. apply lookup_delete_eq. Qed.

(** X12. The identifier of an instance is the identifier its class gave to
    [Component] followed by the one it gave to the style object (line 159).
    The first instance of a class that is mounted draws the two identifiers,
    the one of the style object first; when they are not empty, a later
    instance draws none and gets the same [instanceId]. *)
Theorem instances_of_a_class_share_their_instanceId styles base w :
  uuid_of (next_uuid w) ≠ "" →
  uuid_of (S (next_uuid w)) ≠ "" →
  let cls := (manageJss (Some styles) base w).1 in
  let w0 := (manageJss (Some styles) base w).2 in
  let id := uuid_of (S (next_uuid w)) +:+ uuid_of (next_uuid w) in
  ∃ s1 s2,
    mount {| this := newInstance cls; world := w0 |} = (Ok tt, s1) ∧
    mount {| this := newInstance cls; world := world s1 |} = (Ok tt, s2) ∧
    instanceId (this s1) = Some id ∧
    instanceId (this s2) = Some id ∧
    next_uuid (world s1) = S (S (next_uuid w)) ∧
    next_uuid (world s2) = S (S (next_uuid w)).
Proof.
  intros Hu1 Hu2 cls w0 id.
  set (w0' := with_trace (fun t => t ++ [EDispatchEvent registerComponent JsNull;
                                         EDispatchEvent getConfig (JsObj [])]) w0).
  destruct (consult_fresh {| this := initialized cls; world := w0' |} styles eq_refl)
    as (w1 & Hconsult & Hstatics & Huuid & _); [apply manageJss_fresh|].
  cbn [this world] in Hconsult, Hstatics, Huuid.
  destruct (mount_of_consult cls styles w0 _ _ w1 eq_refl Hconsult)
    as (w3 & Hmount & _ & Hstatics3 & Huuid3 & _).
  set (w3' := with_trace (fun t => t ++ [EDispatchEvent registerComponent JsNull;
                                         EDispatchEvent getConfig (JsObj [])]) w3).
  change (next_uuid w0') with (next_uuid w) in Hconsult, Hstatics, Huuid.
  change (next_obj w0') with (next_obj w) in Hconsult, Hstatics.
  fold id in Hconsult, Hstatics.
  assert (separatedStylesInstance_of_cache {| this := initialized cls; world := w3' |}
          = (Ok (separated styles (next_obj w)),
             {| this := set_instanceId (Some id) (initialized cls); world := w3' |}))
    as Hhit.
  { eapply (consult_hit_key {| this := initialized cls; world := w3' |} styles
              _ (uuid_of (next_uuid w)) (uuid_of (S (next_uuid w)))); [done| | | | | |].
    - cbn [this world]. change (statics w3') with (statics w3).
      rewrite Hstatics3, Hstatics. apply lookup_insert_eq.
    - simpl. apply lookup_singleton_eq.
    - done.
    - simpl. apply lookup_singleton_eq.
    - done.
    - simpl. apply lookup_singleton_eq. }
  destruct (mount_of_consult cls styles w3 _ _ w3' eq_refl Hhit)
    as (w4 & Hmount2 & _ & _ & Huuid4 & _).
  eexists _, _. split; [exact Hmount|]. cbn [world this].
  split; [exact Hmount2|]. simpl.
  split; [done|]. split; [done|].
  split; [by rewrite Huuid3, Huuid|].
  rewrite Huuid4. change (next_uuid w3') with (next_uuid w3). by rewrite Huuid3, Huuid.
Qed.




Lemma getStaticStyles_empty : getStaticStyles ∅ = None.
Proof. unfold getStaticStyles. rewrite omap_empty. by rewrite decide_True. Qed.

Lemma getDynamicStyles_empty : getDynamicStyles ∅ = None.
Proof. unfold getDynamicStyles. rewrite omap_empty. by rewrite decide_True. Qed.

(** X14. A style object with no rule: mounting an instance of its class
    returns, and compiles no sheet. [separateStyles] runs and its result, an
    object with no side, is stored in the cache; the state holds no handle,
    [this.className] is left undefined, and nothing is attached or given to
    the sheets manager. *)
Theorem mount_with_empty_style_object ref base w :
  let styles := {| style_ref := ref; style_keys := []; style_rules := ∅ |} in
  let cls := (manageJss (Some styles) base w).1 in
  let w0 := (manageJss (Some styles) base w).2 in
  ∃ s3 key,
    mount {| this := newInstance cls; world := w0 |} = (Ok tt, s3) ∧
    state (this s3) = Some noHandles ∧
    className (this s3) = None ∧
    instanceId (this s3) = Some key ∧
    trace (world s3)
    = trace w ++ [EDispatchEvent registerComponent JsNull;
                  EDispatchEvent getConfig (JsObj []);
                  EGetDynamicStyles (Some ref); EGetStaticStyles (Some ref)] ∧
    attached (world s3) = attached w ∧
    managed (world s3) = managed w ∧
    registry (world s3) = registry w ∧
    separatedStyles (classStatics (class_id cls) (world s3))
    = {[ key := {| sep_ref := next_obj w; sep_staticStyles := None;
                   sep_staticStyleSheet := None; sep_dynamicStyles := None |} ]}.
Proof.
  intros styles cls w0.
  set (w0' := with_trace (fun t => t ++ [EDispatchEvent registerComponent JsNull;
                                         EDispatchEvent getConfig (JsObj [])]) w0).
  destruct (consult_fresh {| this := initialized cls; world := w0' |} styles eq_refl)
    as (w1 & Hconsult & Hstatics & _ & Hobj & Htrace & Hreg & Hatt & Hman);
    [apply manageJss_fresh|].
  cbn [this world] in Hconsult, Hstatics, Hobj, Htrace, Hreg, Hatt, Hman.
  destruct (mount_of_consult cls styles w0 _ _ w1 eq_refl Hconsult)
    as (w3 & Hmount & Htrace3 & Hstatics3 & _ & _ & Hreg3 & Hquiet).
  unfold separated, separate_events, separate_registry, content_state, content_events,
    content_registry, view_events in *.
  simpl in *. rewrite getStaticStyles_empty, getDynamicStyles_empty in *. simpl in *.
  destruct (Hquiet eq_refl) as [Hatt3 Hman3].
  eexists _, _. split; [exact Hmount|]. simpl.
  split; [done|]. split; [by rewrite mergeClassNames_lookup|]. split; [done|].
  split; [by rewrite Htrace3, Htrace, app_nil_r, <-app_assoc|].
  split; [by rewrite Hatt3, Hatt|]. split; [by rewrite Hman3, Hman|].
  split; [by rewrite Hreg3, Hreg|].
  unfold classStatics. rewrite Hstatics3, Hstatics. simpl. by rewrite lookup_insert_eq.
Qed.

(** X15. Configurations delivered one after the other to an initialised
    instance, whatever values they are: the last one wins. It is the value of
    [this.config] afterwards, [designSystem] gives it (or [{}] when it is
    falsy), and the dynamic sheet, when the instance has one, was last
    evaluated against what [designSystem] gives. *)
Theorem last_configuration_wins (configs : list JsVal) (c : JsVal) : ∀ s st,
  listeners (this s) = [GetConfigListener; UpdateListener] →
  state (this s) = Some st →
  ∃ s2,
    forEach (configs ++ [c]) (fun detail => receiveEvent getConfig detail) s = (Ok tt, s2) ∧
    config (this s2) = c ∧
    state (this s2) = Some st ∧
    designSystem s2 = (Ok (designSystem_of c), s2) ∧
    (∀ d, dynamicStyleSheet st = Some d →
          rendered (world s2) !! sheet_id d = Some (designSystem_of c)).
Proof.
  induction configs as [|c0 configs IH]; intros s st Hls Hst.
  - simpl. unfold mbind, M_bind. rewrite (receive_getConfig s st c Hls Hst).
    eexists. split; [reflexivity|]. simpl. split; [done|]. split; [done|].
    split; [done|]. intros d Hd. unfold config_world. rewrite Hd. simpl.
    apply lookup_insert_eq.
  - simpl. unfold mbind, M_bind. rewrite (receive_getConfig s st c0 Hls Hst).
    apply IH; done.
Qed.


End JSSManager.

(** ** Examples *)

(** C5 as stated fails. A rule whose nested tree is empty is on neither side
    of the separation, so that the union of the two sides is not the
    original tree; and a rule name that holds both a literal and a resolver
    is on both sides at the same position. *)
Lemma separateStyles_counterexample :
  let s := {| this := newInstance {| class_id := 0; class_styles := Some emptyRule_styles;
                                     class_base := 0 |};
              world := initialWorld |} in
  (∃ sep s',
     separateStyles sample_className (Some emptyRule_styles) s = (Ok sep, s') ∧
     styles_union (sep_staticStyles sep) (sep_dynamicStyles sep)
     ≠ style_rules emptyRule_styles) ∧
  (∃ sep s',
     separateStyles sample_className (Some (sample_styles 7)) s = (Ok sep, s') ∧
     is_Some (default ∅ (sep_staticStyles sep) !! "button") ∧
     is_Some (default ∅ (sep_dynamicStyles sep) !! "button")).
Proof.
  intros s. split.
  - eexists _, _. split; [apply separateStyles_run|].
    vm_compute. discriminate.
  - eexists _, _. split; [apply separateStyles_run|].
    split; vm_compute; eauto.
Qed.

(** C3 as stated fails. Two component types wrapped with the same style
    object: mounting an instance of each compiles two static sheets and
    extracts the dynamic rules twice, not once. *)
Lemma shared_styles_counterexample :
  let styles := sample_styles 7 in
  let A := (manageJss (Some styles) 1 initialWorld).1 in
  let wA := (manageJss (Some styles) 1 initialWorld).2 in
  let B := (manageJss (Some styles) 2 wA).1 in
  let wB := (manageJss (Some styles) 2 wA).2 in
  let sA := (mount sample_uuid sample_className {| this := newInstance A; world := wB |}).2 in
  let sB := (mount sample_uuid sample_className
               {| this := newInstance B; world := world sA |}).2 in
  count_events is_staticCompilation (trace (world sB)) = 2 ∧
  count_events is_extraction (trace (world sB)) = 2 ∧
  ¬ (count_events is_staticCompilation (trace (world sB)) = 1 ∧
     count_events is_extraction (trace (world sB)) = 1).
Proof.
  intros styles A wA B wB sA sB.
  assert (count_events is_staticCompilation (trace (world sB)) = 2) as H1
    by (vm_compute; reflexivity).
  assert (count_events is_extraction (trace (world sB)) = 2) as H2
    by (vm_compute; reflexivity).
  rewrite H1, H2. repeat split. intros [? _]. discriminate.
Qed.


(** C3, as the code has it, at an example. *)
Lemma shared_styles_separated_once_per_class_witness :
  is_Some (getStaticStyles (style_rules (sample_styles 7))) ∧
  is_Some (getDynamicStyles (style_rules (sample_styles 7))) ∧
  let styles := sample_styles 7 in
  let w := initialWorld in
  let A := (manageJss (Some styles) 1 w).1 in
  let wA := (manageJss (Some styles) 1 w).2 in
  let B := (manageJss (Some styles) 2 wA).1 in
  let wB := (manageJss (Some styles) 2 wA).2 in
  ∃ sA sB evs dA dB,
    mount sample_uuid sample_className {| this := newInstance A; world := wB |} = (Ok tt, sA) ∧
    mount sample_uuid sample_className {| this := newInstance B; world := world sA |}
    = (Ok tt, sB) ∧
    trace (world sB) = trace w ++ evs ∧
    count_events is_staticCompilation evs = 2 ∧
    count_events is_extraction evs = 2 ∧
    count_events is_dynamicCompilation evs = 2 ∧
    count_events is_registration evs = 2 ∧
    state (this sA) ≫= dynamicStyleSheet = Some dA ∧
    state (this sB) ≫= dynamicStyleSheet = Some dB ∧
    sheet_id dA ≠ sheet_id dB.
Proof.
  assert (is_Some (getStaticStyles (style_rules (sample_styles 7)))) as Hs
    by (vm_compute; eauto).
  assert (is_Some (getDynamicStyles (style_rules (sample_styles 7)))) as Hd
    by (vm_compute; eauto).
  split; [exact Hs|]. split; [exact Hd|].
  exact (shared_styles_separated_once_per_class sample_uuid sample_className
           (sample_styles 7) 1 2 initialWorld Hs Hd).
Defined.

(** C6 at the scenario of the specification: [{color: "red"}], then
    [{color: "blue"}]. *)
Lemma config_deliveries_update_dynamic_sheet_witness :
  WorldInv initialWorld ∧
  let configs := [[("color", JsStr "red")]; [("color", JsStr "blue")]] in
  let cls := {| class_id := 0; class_styles := Some (sample_styles 7); class_base := 1 |} in
  ∃ s1 st s2,
    mount sample_uuid sample_className {| this := newInstance cls; world := initialWorld |}
    = (Ok tt, s1) ∧
    state (this s1) = Some st ∧
    forEach configs (fun c => receiveEvent getConfig (JsObj c)) s1 = (Ok tt, s2) ∧
    state (this s2) = Some st ∧
    attached (world s2) = attached (world s1) ∧
    managed (world s2) = managed (world s1) ∧
    match dynamicStyleSheet st with
    | Some d =>
        trace (world s2)
        = trace (world s1) ++ map (fun c => ESheetUpdate (sheet_id d) (JsObj c)) configs ∧
        (∀ s, staticStyleSheet st = Some s → sheet_id s ≠ sheet_id d)
    | None => world s2 = world s1
    end.
Proof.
  assert (WorldInv initialWorld) as Hinv.
  { split; [|split]; simpl.
    - intros c st key sep sheet Hc. by rewrite lookup_empty in Hc.
    - intros e id He. by apply elem_of_nil in He.
    - intros k e id Hk. by rewrite lookup_nil in Hk. }
  split; [exact Hinv|].
  exact (config_deliveries_update_dynamic_sheet sample_uuid sample_className
           0 (sample_styles 7) 1 initialWorld
           [[("color", JsStr "red")]; [("color", JsStr "blue")]] Hinv).
Defined.


(** Outside the order of the lifecycle: the listener of [ngOnInit] is in
    place as soon as the instance is initialised, so a configuration that
    reaches the instance after [ngAfterContentInit] and before
    [ngAfterViewInit] updates the dynamic sheet, which is created and not yet
    attached. The creation still comes first. *)
Lemma delivery_before_view_init_updates_unattached :
  let cls := {| class_id := 0; class_styles := Some (sample_styles 7); class_base := 1 |} in
  let config := JsObj [("color", JsStr "red")] in
  ∃ s,
    (ngOnInit;; ngAfterContentInit sample_uuid sample_className;;
     receiveEvent getConfig config;; ngAfterViewInit)
      {| this := newInstance cls; world := initialWorld |} = (Ok tt, s) ∧
    trace (world s)
    = [EDispatchEvent registerComponent JsNull;
       EDispatchEvent getConfig (JsObj []);
       EGetDynamicStyles (Some 7); EGetStaticStyles (Some 7);
       ECreateStyleSheet 1 false; ECreateStyleSheet 2 true;
       ESheetUpdate 2 config;
       EManagerAdd 1; EManagerManage 1;
       ESheetAttach 2; ESheetUpdate 2 config].
Proof.
  intros cls config. eexists. split; [vm_compute; reflexivity|]. reflexivity.
Qed.

(** X2 at an example: an [update] event after a mount. *)
Lemma update_event_redispatches_getConfig_witness :
  let cls := {| class_id := 0; class_styles := Some (sample_styles 7); class_base := 1 |} in
  let s := (mount sample_uuid sample_className
              {| this := newInstance cls; world := initialWorld |}).2 in
  let st := {| dynamicStyleSheet := Some (newStyleSheet sample_className 2
                                            {[ "button" := Nested {[ "width" := Resolver (fun _ => "1px") ]} ]} true);
               staticStyleSheet := Some (newStyleSheet sample_className 1
                                           {[ "button" := Nested {[ "color" := Literal "red" ]} ]} false) |} in
  listeners (this s) = [GetConfigListener; UpdateListener] ∧
  state (this s) = Some st ∧
  ∃ w',
    receiveEvent update JsNull s
    = (Ok tt, {| this := set_config (JsObj []) (this s); world := w' |}) ∧
    trace w'
    = trace (world s)
      ++ EDispatchEvent getConfig (JsObj [])
         :: match dynamicStyleSheet st with
            | Some d => [ESheetUpdate (sheet_id d) (JsObj [])]
            | None => []
            end ∧
    attached w' = attached (world s) ∧
    managed w' = managed (world s) ∧
    registry w' = registry (world s) ∧
    statics w' = statics (world s) ∧
    (∀ detail', receiveEvent update detail' s = receiveEvent update JsNull s).
Proof.
  intros cls s st.
  assert (listeners (this s) = [GetConfigListener; UpdateListener]) as Hls
    by (vm_compute; reflexivity).
  assert (state (this s) = Some st) as Hst by (vm_compute; reflexivity).
  split; [exact Hls|]. split; [exact Hst|].
  exact (update_event_redispatches_getConfig s st JsNull Hls Hst).
Defined.


(** X4 at an example: [null] delivered to a mounted instance. *)
Lemma falsy_configuration_updates_with_empty_object_witness :
  let cls := {| class_id := 0; class_styles := Some (sample_styles 7); class_base := 1 |} in
  let s := (mount sample_uuid sample_className
              {| this := newInstance cls; world := initialWorld |}).2 in
  let d := newStyleSheet sample_className 2
             {[ "button" := Nested {[ "width" := Resolver (fun _ => "1px") ]} ]} true in
  let st := {| dynamicStyleSheet := Some d;
               staticStyleSheet := Some (newStyleSheet sample_className 1
                                           {[ "button" := Nested {[ "color" := Literal "red" ]} ]} false) |} in
  listeners (this s) = [GetConfigListener; UpdateListener] ∧
  state (this s) = Some st ∧
  dynamicStyleSheet st = Some d ∧
  truthy JsNull = false ∧
  ∃ s',
    receiveEvent getConfig JsNull s = (Ok tt, s') ∧
    config (this s') = JsNull ∧
    designSystem s' = (Ok (JsObj []), s') ∧
    trace (world s') = trace (world s) ++ [ESheetUpdate (sheet_id d) (JsObj [])] ∧
    rendered (world s') !! sheet_id d = Some (JsObj []).
Proof.
  intros cls s d st.
  assert (listeners (this s) = [GetConfigListener; UpdateListener]) as Hls
    by (vm_compute; reflexivity).
  assert (state (this s) = Some st) as Hst by (vm_compute; reflexivity).
  assert (dynamicStyleSheet st = Some d) as Hd by reflexivity.
  assert (truthy JsNull = false) as Hf by reflexivity.
  split; [exact Hls|]. split; [exact Hst|]. split; [exact Hd|]. split; [exact Hf|].
  exact (falsy_configuration_updates_with_empty_object s st d JsNull Hls Hst Hd Hf).
Defined.

(** X6 at an example: an instance on which no hook has run. *)
Lemma hooks_without_state_throw_witness :
  let cls := {| class_id := 0; class_styles := Some (sample_styles 7); class_base := 1 |} in
  let s := {| this := newInstance cls; world := initialWorld |} in
  state (this s) = None ∧
  ngAfterViewInit s = (Throw (TypeError "Cannot read properties of undefined"), s) ∧
  ngOnDestroy s = (Throw (TypeError "Cannot read properties of undefined"), s) ∧
  getClassNames s = (Throw (TypeError "Cannot read properties of undefined"), s) ∧
  (∀ styles, class_styles (inst_class (this s)) = Some styles →
             (ngAfterContentInit sample_uuid sample_className s).1 = Ok tt ∧
             is_Some (state (this (ngAfterContentInit sample_uuid sample_className s).2))).
Proof.
  intros cls s.
  assert (state (this s) = None) as H by reflexivity.
  split; [exact H|].
  exact (hooks_without_state_throw sample_uuid sample_className s H).
Defined.

(** X7 at an example: the system after one instance has been mounted, and
    its static sheet. *)
Lemma static_sheets_go_through_the_manager_witness :
  let cls := {| class_id := 0; class_styles := Some (sample_styles 7); class_base := 1 |} in
  let call := runHook sample_uuid sample_className in
  let sys := call AfterViewInit 0 (call AfterContentInit 0 (call OnInit 0
               (createInstance cls initialSystem))) in
  reachable sample_uuid sample_className sys ∧
  let t := trace (sys_world sys) in
  (ECreateStyleSheet 1 false ∈ t →
   (ECreateStyleSheet 1 true ∉ t) ∧ (ESheetAttach 1 ∉ t) ∧ (ESheetDetach 1 ∉ t) ∧
   (ERemoveStyleSheet 1 ∉ t) ∧ (∀ data, ESheetUpdate 1 data ∉ t)) ∧
  (ECreateStyleSheet 1 true ∈ t →
   (EManagerAdd 1 ∉ t) ∧ (EManagerManage 1 ∉ t) ∧ (EManagerUnmanage 1 ∉ t)).
Proof.
  intros cls call sys.
  assert (reachable sample_uuid sample_className sys) as Hreach.
  { repeat apply reachable_runHook. apply reachable_createInstance. apply rtc_refl. }
  split; [exact Hreach|].
  exact (static_sheets_go_through_the_manager sample_uuid sample_className sys 1 Hreach).
Defined.

(** X8 at an example: the evaluation of the dynamic sheet by
    [ngAfterViewInit], before any configuration has been delivered. *)
Lemma sheets_are_updated_with_truthy_values_witness :
  let cls := {| class_id := 0; class_styles := Some (sample_styles 7); class_base := 1 |} in
  let call := runHook sample_uuid sample_className in
  let sys := call AfterViewInit 0 (call AfterContentInit 0 (call OnInit 0
               (createInstance cls initialSystem))) in
  reachable sample_uuid sample_className sys ∧
  ESheetUpdate 2 (JsObj []) ∈ trace (sys_world sys) ∧
  truthy (JsObj []) = true.
Proof.
  intros cls call sys.
  assert (reachable sample_uuid sample_className sys) as Hreach.
  { repeat apply reachable_runHook. apply reachable_createInstance. apply rtc_refl. }
  assert (ESheetUpdate 2 (JsObj []) ∈ trace (sys_world sys)) as Hin.
  { apply (list_elem_of_lookup_2 _ 9). vm_compute. reflexivity. }
  split; [exact Hreach|]. split; [exact Hin|].
  exact (sheets_are_updated_with_truthy_values sample_uuid sample_className
           sys 2 (JsObj []) Hreach Hin).
Defined.

(** X9 at an example: a configuration that reaches an instance between its
    [ngOnInit] and its [ngAfterContentInit]. *)
Lemma listeners_always_find_a_state_witness :
  let cls := {| class_id := 0; class_styles := Some (sample_styles 7); class_base := 1 |} in
  let sys := runHook sample_uuid sample_className OnInit 0
               (createInstance cls initialSystem) in
  let i := initialized cls in
  let detail := JsObj [("color", JsStr "red")] in
  reachable sample_uuid sample_className sys ∧
  sys_instances sys !! 0 = Some i ∧
  listeners i ≠ [] ∧
  is_Some (state i) ∧
  (onGetConfig detail {| this := i; world := sys_world sys |}).1 = Ok tt.
Proof.
  intros cls sys i detail.
  assert (reachable sample_uuid sample_className sys) as Hreach.
  { apply reachable_runHook. apply reachable_createInstance. apply rtc_refl. }
  assert (sys_instances sys !! 0 = Some i) as Hk by (vm_compute; reflexivity).
  assert (listeners i ≠ []) as Hne by (simpl; discriminate).
  split; [exact Hreach|]. split; [exact Hk|]. split; [exact Hne|].
  exact (listeners_always_find_a_state sample_uuid sample_className
           sys 0 i detail Hreach Hk Hne).
Defined.

(** X10 at an example: two instances of one class, both mounted. *)
Lemma instances_share_no_dynamic_sheet_witness :
  let cls := {| class_id := 0; class_styles := Some (sample_styles 7); class_base := 1 |} in
  let call := runHook sample_uuid sample_className in
  let sys := call AfterViewInit 1 (call AfterContentInit 1 (call OnInit 1
               (createInstance cls
                  (call AfterViewInit 0 (call AfterContentInit 0 (call OnInit 0
                     (createInstance cls initialSystem))))))) in
  let i1 := default (newInstance cls) (sys_instances sys !! 0) in
  let i2 := default (newInstance cls) (sys_instances sys !! 1) in
  let st1 := default noHandles (state i1) in
  let st2 := default noHandles (state i2) in
  let d := newStyleSheet sample_className 2
             {[ "button" := Nested {[ "width" := Resolver (fun _ => "1px") ]} ]} true in
  reachable sample_uuid sample_className sys ∧
  0 ≠ 1 ∧
  sys_instances sys !! 0 = Some i1 ∧
  sys_instances sys !! 1 = Some i2 ∧
  state i1 = Some st1 ∧
  state i2 = Some st2 ∧
  dynamicStyleSheet st1 = Some d ∧
  (∀ d2, dynamicStyleSheet st2 = Some d2 → sheet_id d ≠ sheet_id d2) ∧
  (∀ s2, staticStyleSheet st2 = Some s2 → sheet_id d ≠ sheet_id s2) ∧
  (∀ s1, staticStyleSheet st1 = Some s1 → sheet_id d ≠ sheet_id s1).
Proof.
  intros cls call sys i1 i2 st1 st2 d.
  assert (reachable sample_uuid sample_className sys) as Hreach.
  { repeat (apply reachable_runHook || apply reachable_createInstance). apply rtc_refl. }
  assert (0 ≠ 1) as Hne by discriminate.
  assert (sys_instances sys !! 0 = Some i1) as H1 by (vm_compute; reflexivity).
  assert (sys_instances sys !! 1 = Some i2) as H2 by (vm_compute; reflexivity).
  assert (state i1 = Some st1) as Hst1 by (vm_compute; reflexivity).
  assert (state i2 = Some st2) as Hst2 by (vm_compute; reflexivity).
  assert (dynamicStyleSheet st1 = Some d) as Hd by (vm_compute; reflexivity).
  split; [exact Hreach|]. split; [exact Hne|]. split; [exact H1|]. split; [exact H2|].
  split; [exact Hst1|]. split; [exact Hst2|]. split; [exact Hd|].
  exact (instances_share_no_dynamic_sheet sample_uuid sample_className
           sys 0 1 i1 i2 st1 st2 d Hreach Hne H1 H2 Hst1 Hst2 Hd).
Defined.

(** X11 at an example: the entry stored by a mount is still there after
    [ngOnDestroy]. *)
Lemma hooks_keep_cache_entries_witness :
  let cls := {| class_id := 0; class_styles := Some (sample_styles 7); class_base := 1 |} in
  let s := (mount sample_uuid sample_className
              {| this := newInstance cls; world := initialWorld |}).2 in
  let sep := separated sample_className (sample_styles 7) 0 in
  separatedStyles (classStatics 0 (world s)) !! "id1-id0-" = Some sep ∧
  separatedStyles
    (classStatics 0 (world (callHook sample_uuid sample_className OnDestroy s).2))
  !! "id1-id0-" = Some sep.
Proof.
  intros cls s sep.
  assert (separatedStyles (classStatics 0 (world s)) !! "id1-id0-" = Some sep) as H
    by (vm_compute; reflexivity).
  split; [exact H|].
  exact (hooks_keep_cache_entries sample_uuid sample_className OnDestroy s 0 "id1-id0-" sep H).
Defined.

(** X12 at an example: two instances of the first class of a program. *)
Lemma instances_of_a_class_share_their_instanceId_witness :
  sample_uuid (next_uuid initialWorld) ≠ "" ∧
  sample_uuid (S (next_uuid initialWorld)) ≠ "" ∧
  let cls := (manageJss (Some (sample_styles 7)) 1 initialWorld).1 in
  let w0 := (manageJss (Some (sample_styles 7)) 1 initialWorld).2 in
  let id := sample_uuid (S (next_uuid initialWorld)) +:+ sample_uuid (next_uuid initialWorld) in
  ∃ s1 s2,
    mount sample_uuid sample_className {| this := newInstance cls; world := w0 |}
    = (Ok tt, s1) ∧
    mount sample_uuid sample_className {| this := newInstance cls; world := world s1 |}
    = (Ok tt, s2) ∧
    instanceId (this s1) = Some id ∧
    instanceId (this s2) = Some id ∧
    next_uuid (world s1) = S (S (next_uuid initialWorld)) ∧
    next_uuid (world s2) = S (S (next_uuid initialWorld)).
Proof.
  assert (sample_uuid (next_uuid initialWorld) ≠ "") as H1 by (vm_compute; discriminate).
  assert (sample_uuid (S (next_uuid initialWorld)) ≠ "") as H2 by (vm_compute; discriminate).
  split; [exact H1|]. split; [exact H2|].
  exact (instances_of_a_class_share_their_instanceId sample_uuid sample_className
           (sample_styles 7) 1 initialWorld H1 H2).
Defined.

(** X15 at an example: [{color: "red"}], then [null], delivered to a mounted
    instance. *)
Lemma last_configuration_wins_witness :
  let cls := {| class_id := 0; class_styles := Some (sample_styles 7); class_base := 1 |} in
  let s := (mount sample_uuid sample_className
              {| this := newInstance cls; world := initialWorld |}).2 in
  let st := default noHandles (state (this s)) in
  listeners (this s) = [GetConfigListener; UpdateListener] ∧
  state (this s) = Some st ∧
  ∃ s2,
    forEach ([JsObj [("color", JsStr "red")]] ++ [JsNull])
      (fun detail => receiveEvent getConfig detail) s = (Ok tt, s2) ∧
    config (this s2) = JsNull ∧
    state (this s2) = Some st ∧
    designSystem s2 = (Ok (designSystem_of JsNull), s2) ∧
    (∀ d, dynamicStyleSheet st = Some d →
          rendered (world s2) !! sheet_id d = Some (designSystem_of JsNull)).
Proof.
  intros cls s st.
  assert (listeners (this s) = [GetConfigListener; UpdateListener]) as Hls
    by (vm_compute; reflexivity).
  assert (state (this s) = Some st) as Hst by (vm_compute; reflexivity).
  split; [exact Hls|]. split; [exact Hst|].
  exact (last_configuration_wins [JsObj [("color", JsStr "red")]] JsNull s st Hls Hst).
Defined.
